(** * tasks.py: a registry of tasks and the loop that runs the stale ones

    A shallow embedding of [src/tasks.py].  The module keeps one dictionary
    [tasks]; the decorator [task] stores an entry under the decorated
    function's name, and [run_tasks] walks the dictionary, checks the files
    each entry names and calls the entries that have to run.

    What the module does to its surroundings is made explicit: the process
    state is a record [World] holding the filesystem (path to modification
    time), [sys.argv], the dictionary [tasks] and a log of what happened
    (every [exists] and [getmtime] query, every printed line, every call of
    a task).  Python code becomes a function from [World] to an outcome
    (a value or a raised exception) and the [World] it leaves behind. *)

From stdpp Require Import gmap strings list.
From Stdlib Require Import ZArith.

Local Open Scope Z_scope.

(** ** Python values *)

(** A file of a task is a [str] or a [pathlib.Path] (docstring of [task]:
    "list of files (strings or Path objects)").  Both carry the text of the
    path; they differ in what [str.join] accepts. *)
Inductive path :=
| Str (s : string)
| Path (s : string).

(** [os.fspath]: the text handed to the operating system. *)
Definition fspath (p : path) : string :=
  match p with Str s => s | Path s => s end.

(** [str(f)] *)
Definition str (p : path) : string :=
  match p with Str s => s | Path s => s end.

(** Exceptions the module can end with. *)
Inductive exn :=
| FileNotFoundError (msg : string)   (* raised by run_tasks, line 66 *)
| TypeError (item : nat)             (* str.join: sequence item [item] is not a str *)
| NameError (name : string)          (* name [name] is not defined *)
| OSError (filename : string)        (* os.stat failed inside getmtime *)
| TaskFailure (what : string).       (* anything a task itself raises *)

Inductive result (A : Type) :=
| Ok (a : A)
| Raise (e : exn).
Arguments Ok {A} a.
Arguments Raise {A} e.

(** Modification times are the numbers [getmtime] returns; only their order
    and [max] are used, so they are integers here. *)
Abbreviation FS := (gmap string Z).

(** A decorated function: its [__name__], the file [inspect.getfile] finds
    for it, and what calling it does: how the call ends (it returns or it
    raises) and the filesystem it leaves behind.  A routine that raises
    leaves what it wrote before it raised. *)
Record Callable := {
  __name__ : string;
  co_filename : string;
  body : FS -> result unit * FS
}.

(** The dictionary stored per task (lines 30-34). *)
Record Task := {
  callable : Callable;
  inputs : list path;
  outputs : list path
}.

Inductive event :=
| Exists (p : path)        (* exists(p) was evaluated *)
| Getmtime (p : path)      (* getmtime(p) was evaluated *)
| Print (line : string)    (* print(line) *)
| Call (f : Callable).     (* f() was entered *)

(** ** Python dictionaries keep insertion order

    [d[k] = v] on a key that is present replaces the value where the key
    already stands; on a new key it appends. *)
Section Dict.
Context {V : Type}.

Fixpoint dict_setitem (k : string) (v : V) (d : list (string * V)) : list (string * V) :=
  match d with
  | [] => [(k, v)]
  | (k', v') :: d' =>
      if bool_decide (k = k') then (k', v) :: d'
      else (k', v') :: dict_setitem k v d'
  end.

Fixpoint dict_get (k : string) (d : list (string * V)) : option V :=
  match d with
  | [] => None
  | (k', v') :: d' => if bool_decide (k = k') then Some v' else dict_get k d'
  end.

Definition dict_keys (d : list (string * V)) : list string := d.*1.
End Dict.

(** ** The process state *)
Record World := {
  fs : FS;
  argv : list string;
  tasks : list (string * Task);
  log : list event
}.

Definition emits (evs : list event) (w : World) : World :=
  {| fs := fs w; argv := argv w; tasks := tasks w; log := log w ++ evs |}.

Definition set_fs (f : FS) (w : World) : World :=
  {| fs := f; argv := argv w; tasks := tasks w; log := log w |}.

Definition set_tasks (d : list (string * Task)) (w : World) : World :=
  {| fs := fs w; argv := argv w; tasks := d; log := log w |}.

(** ** Computations *)
Definition M (A : Type) : Type := World -> result A * World.

Definition ret {A} (a : A) : M A := fun w => (Ok a, w).
Definition raise {A} (e : exn) : M A := fun w => (Raise e, w).
Definition bind {A B} (m : M A) (k : A -> M B) : M B :=
  fun w => match m w with
           | (Ok a, w') => k a w'
           | (Raise e, w') => (Raise e, w')
           end.

Notation "x <- m ;; k" := (bind m (fun x => k))
  (at level 100, m at next level, right associativity).
Notation "m ;;; k" := (bind m (fun _ => k))
  (at level 100, right associativity).

Definition lift {A} (r : result A) : M A := fun w => (r, w).

(** ** The filesystem queries the module imports *)

Definition file_exists (f : FS) (p : path) : bool :=
  bool_decide (is_Some (f !! fspath p)).

(** [os.path.exists]: never raises. *)
Definition os_path_exists (p : path) : M bool :=
  fun w => (Ok (file_exists (fs w) p), emits [Exists p] w).

(** [os.path.getmtime]: raises when the file is not there. *)
Definition getmtime (p : path) : M Z :=
  fun w => (match fs w !! fspath p with
            | Some t => Ok t
            | None => Raise (OSError (fspath p))
            end, emits [Getmtime p] w).

Definition print (line : string) : M unit :=
  fun w => (Ok tt, emits [Print line] w).

(** [f()]: the call is logged, then the body runs; the filesystem is
    what the body left, whether it returned or raised. *)
Definition call (f : Callable) : M unit :=
  fun w => let w1 := emits [Call f] w in
           match body f (fs w1) with
           | (r, f') => (r, set_fs f' w1)
           end.

(** [inspect.getfile(f)] for a function defined with [def]. *)
Definition getfile (f : Callable) : path := Str (co_filename f).

(** ** Builtins *)

(** [sep.join(l)] for strings. *)
Fixpoint join (sep : string) (l : list string) : string :=
  match l with
  | [] => ""
  | [s] => s
  | s :: l' => s +:+ sep +:+ join sep l'
  end.

(** [sep.join(l)] where [l] may hold [Path] objects: the first item that is
    not a [str] is a [TypeError]. *)
Fixpoint strs_from (i : nat) (l : list path) : result (list string) :=
  match l with
  | [] => Ok []
  | Str s :: l' =>
      match strs_from (S i) l' with
      | Ok r => Ok (s :: r)
      | Raise e => Raise e
      end
  | Path _ :: _ => Raise (TypeError i)
  end.

Definition str_join (sep : string) (l : list path) : result string :=
  match strs_from 0 l with
  | Ok r => Ok (join sep r)
  | Raise e => Raise e
  end.

(** [max(xs, default=d)] *)
Definition max_default (xs : list Z) (d : Z) : Z :=
  match xs with
  | [] => d
  | x :: xs' => fold_left Z.max xs' x
  end.

(** [x or []] for an optional list argument (lines 32-33). *)
Definition or_empty (x : option (list path)) : list path :=
  match x with
  | Some (p :: l) => p :: l
  | _ => []
  end.

(** A list is true when it is not empty. *)
Definition truthy {A} (l : list A) : bool :=
  match l with [] => false | _ => true end.

(** [[f(x) for x in xs]], left to right, stopping at the first exception. *)
Fixpoint for_each {A B} (f : A -> M B) (xs : list A) : M (list B) :=
  match xs with
  | [] => ret []
  | x :: xs' => y <- f x ;; ys <- for_each f xs' ;; ret (y :: ys)
  end.

(** [[x for x in xs if c(x)]] *)
Fixpoint keep_if {A} (c : A -> M bool) (xs : list A) : M (list A) :=
  match xs with
  | [] => ret []
  | x :: xs' => b <- c x ;; ys <- keep_if c xs' ;; ret (if b then x :: ys else ys)
  end.

(** ** The module *)

(** Lines 11-36.  [task(inputs, outputs)(func)] *)
Definition task (inputs0 outputs0 : option (list path)) (func : Callable) : M Callable :=
  fun w =>
    (Ok func,
     set_tasks (dict_setitem (__name__ func)
                  {| callable := func;
                     inputs := or_empty inputs0;
                     outputs := or_empty outputs0 |}
                  (tasks w)) w).

(** Lines 95-96. *)
Definition _missing_paths (paths : list path) : M (list path) :=
  keep_if (fun path => e <- os_path_exists path ;; ret (negb e)) paths.

(** Lines 99-103. *)
Definition _out_of_date_outputs (task : Task) : M (list path) :=
  times <- for_each getmtime (inputs task) ;;
  let newest_input := max_default times 0 in
  let source_filename := getfile (callable task) in
  e <- os_path_exists source_filename ;;
  source_modified <- (if e then getmtime source_filename else ret 0) ;;
  let modification_threshold := Z.max newest_input source_modified in
  keep_if (fun output => t <- getmtime output ;; ret (t <? modification_threshold))
          (outputs task).

(** Line 80 reads the name [outputs].  [run_tasks] never assigns it (the
    parameter of that name belongs to [task]), so it is looked up among the
    module's globals, which are the imports, [tasks] and the four
    functions, and then among the builtins, which have no such name. *)
Definition module_globals : list string :=
  ["wraps"; "inspect"; "exists"; "getmtime"; "sys"; "tasks"; "task";
   "run_tasks"; "_missing_paths"; "_out_of_date_outputs"].

(** The truth value of a global: modules and functions are true, the
    dictionary [tasks] is true when it has an entry, and a name that is not
    bound is a [NameError]. *)
Definition global_truth (name : string) : M bool :=
  fun w =>
    if bool_decide (name = "tasks") then (Ok (truthy (tasks w)), w)
    else if bool_decide (name ∈ module_globals) then (Ok true, w)
    else (Raise (NameError name), w).

(** Lines 65-92: the body of the loop for one entry. *)
Definition run_task (force : bool) (task_name : string) (task : Task) : M unit :=
  missing <- _missing_paths (inputs task) ;;
  if truthy missing then
    listed <- lift (str_join ", " missing) ;;
    raise (FileNotFoundError
             ("Cannot run task " +:+ task_name +:+ " because the "
              +:+ "following inputs are missing: " +:+ listed))
  else if force then
    print ("Running task " +:+ task_name +:+ " (forced)...") ;;;
    call (callable task)
  else
    missing <- _missing_paths (outputs task) ;;
    if truthy missing then
      print ("Running task " +:+ task_name +:+ " (missing outputs: "
             +:+ join ", " (str <$> missing) +:+ ")...") ;;;
      call (callable task)
    else
      outdated <- _out_of_date_outputs task ;;
      if truthy outdated then
        print ("Running task " +:+ task_name +:+ " (out of date outputs: "
               +:+ join ", " (str <$> outdated) +:+ ")...") ;;;
        call (callable task)
      else
        o <- global_truth "outputs" ;;
        if negb o then call (callable task)
        else print ("Skipped task " +:+ task_name).

(** Line 64: [for task_name, task in tasks.items()] *)
Fixpoint for_items (force : bool) (items : list (string * Task)) : M unit :=
  match items with
  | [] => ret tt
  | (task_name, task) :: rest => run_task force task_name task ;;; for_items force rest
  end.

(** Lines 39-92. *)
Definition run_tasks (force : bool) : M unit :=
  fun w =>
    let force := force || bool_decide ("--force" ∈ argv w) in
    for_items force (tasks w) w.

(** ** What the module computes, as functions of the filesystem *)

(** The modification time of a file that is there. *)
Definition mtime_of (f : FS) (p : path) : Z :=
  match f !! fspath p with Some t => t | None => 0 end.

Definition missing_in (f : FS) (paths : list path) : list path :=
  List.filter (fun p => negb (file_exists f p)) paths.

Definition all_exist (f : FS) (paths : list path) : Prop :=
  Forall (fun p => file_exists f p = true) paths.

Definition source_modified_time (f : FS) (t : Task) : Z :=
  if file_exists f (getfile (callable t)) then mtime_of f (getfile (callable t)) else 0.

Definition modification_threshold (f : FS) (t : Task) : Z :=
  Z.max (max_default (mtime_of f <$> inputs t) 0) (source_modified_time f t).

Definition out_of_date (f : FS) (t : Task) : list path :=
  List.filter (fun o => mtime_of f o <? modification_threshold f t) (outputs t).

(** The queries [_out_of_date_outputs] makes, in order. *)
Definition staleness_queries (f : FS) (t : Task) : list event :=
  (Getmtime <$> inputs t)
  ++ Exists (getfile (callable t))
  :: (if file_exists f (getfile (callable t)) then [Getmtime (getfile (callable t))] else [])
  ++ (Getmtime <$> outputs t).

Definition calls (evs : list event) : list Callable :=
  omap (fun e => match e with Call f => Some f | _ => None end) evs.

Definition prints (evs : list event) : list string :=
  omap (fun e => match e with Print s => Some s | _ => None end) evs.

Definition mtime_reads (evs : list event) : list path :=
  omap (fun e => match e with Getmtime p => Some p | _ => None end) evs.

(** ** Notices, registrations and logs *)

Definition forced_notice (task_name : string) : string :=
  "Running task " +:+ task_name +:+ " (forced)...".

Definition missing_outputs_notice (task_name : string) (missing : list path) : string :=
  "Running task " +:+ task_name +:+ " (missing outputs: "
  +:+ join ", " (str <$> missing) +:+ ")...".

Definition out_of_date_notice (task_name : string) (outdated : list path) : string :=
  "Running task " +:+ task_name +:+ " (out of date outputs: "
  +:+ join ", " (str <$> outdated) +:+ ")...".

Definition skip_notice (task_name : string) : string :=
  "Skipped task " +:+ task_name.

Definition missing_inputs_message (task_name listed : string) : string :=
  "Cannot run task " +:+ task_name +:+ " because the "
  +:+ "following inputs are missing: " +:+ listed.

(** The entry [task(inputs, outputs)(func)] stores. *)
Definition entry_of (inputs0 outputs0 : option (list path)) (func : Callable) : Task :=
  {| callable := func; inputs := or_empty inputs0; outputs := or_empty outputs0 |}.

(** The process state after a registration. *)
Definition registered (inputs0 outputs0 : option (list path)) (func : Callable)
    (w : World) : World :=
  (task inputs0 outputs0 func w).2.

Definition run_notice_and_call (notice : string) (t : Task) : list event :=
  [Print notice; Call (callable t)].

Definition pass_events (force : bool) (n : string) (t : Task) (f : FS) : list event :=
  (Exists <$> inputs t)
  ++ if truthy (missing_in f (inputs t)) then []
     else if force then run_notice_and_call (forced_notice n) t
     else (Exists <$> outputs t)
          ++ if truthy (missing_in f (outputs t))
             then run_notice_and_call
                    (missing_outputs_notice n (missing_in f (outputs t))) t
             else staleness_queries f t
                  ++ if truthy (out_of_date f t)
                     then run_notice_and_call
                            (out_of_date_notice n (out_of_date f t)) t
                     else [].

(** [force or '--force' in sys.argv] (line 62) *)
Definition effective_force (force : bool) (w : World) : bool :=
  force || bool_decide ("--force" ∈ argv w).

(** The texts of [ps] when every one of them is a [str]. *)
Definition str_texts (ps : list path) : option (list string) :=
  match strs_from 0 ps with Ok r => Some r | Raise _ => None end.

(** One use of the decorator: [@task(inputs, outputs) def func(): ...] *)
Definition registration : Type := option (list path) * option (list path) * Callable.

Definition routine (r : registration) : Callable := r.2.

Definition entry (r : registration) : string * Task :=
  (__name__ (routine r), entry_of r.1.1 r.1.2 (routine r)).

(** The decorator used on each of [rs] in turn. *)
Definition register_all (rs : list registration) (w : World) : World :=
  foldl (fun w r => registered r.1.1 r.1.2 (routine r) w) w rs.

(** Every entry finds its inputs in place when its turn comes, and every
    task returns. *)
Fixpoint inputs_exist_in_turn (items : list (string * Task)) (f : FS) : Prop :=
  match items with
  | [] => True
  | (_, t) :: rest =>
      missing_in f (inputs t) = []
      /\ exists f', body (callable t) f = (Ok tt, f') /\ inputs_exist_in_turn rest f'
  end.

(** What a forced run logs: per entry, the checks of its inputs, the
    notice and the call. *)
Fixpoint forced_events (items : list (string * Task)) : list event :=
  match items with
  | [] => []
  | (n, t) :: rest =>
      (Exists <$> inputs t) ++ run_notice_and_call (forced_notice n) t
      ++ forced_events rest
  end.

(** The two baselines in the spec's wording.  "The maximum modification
    time over the task's inputs, or the sentinel 0 when the inputs list is
    empty": *)
Definition spec_newest_input_time (f : FS) (t : Task) (m : Z) : Prop :=
  match inputs t with
  | [] => m = 0
  | _ => (exists p, p ∈ inputs t /\ mtime_of f p = m)
         /\ (forall p, p ∈ inputs t -> mtime_of f p <= m)
  end.

(** "The modification time of the task's origin artifact, or 0 when that
    artifact cannot be located": *)
Definition spec_source_modified_time (f : FS) (t : Task) (s : Z) : Prop :=
  (file_exists f (getfile (callable t)) = true
   /\ s = mtime_of f (getfile (callable t)))
  \/ (file_exists f (getfile (callable t)) = false /\ s = 0).

(** ** Further notions: kinds of path, names and their order *)

(** [isinstance(p, str)] *)
Definition is_str (p : path) : bool :=
  match p with Str _ => true | Path _ => false end.

(** The name a registration is stored under. *)
Definition name_of (r : registration) : string := __name__ (routine r).

(** The names of a list without repetition, each where it occurs first. *)
Fixpoint first_occurrences (names : list string) : list string :=
  match names with
  | [] => []
  | k :: rest => k :: filter (fun k' => k' <> k) (first_occurrences rest)
  end.

(** The last registration of [rs] made under the name [k]. *)
Definition latest (k : string) (rs : list registration) : option registration :=
  last (filter (fun r => name_of r = k) rs).

(** The file that defines the routine of a task. *)
Definition source_of (t : Task) : path := getfile (callable t).

(** What [_out_of_date_outputs] asks before it looks at the outputs. *)
Definition baseline_queries (f : FS) (t : Task) : list event :=
  (Getmtime <$> inputs t)
  ++ Exists (source_of t)
  :: (if file_exists f (source_of t) then [Getmtime (source_of t)] else []).

(** The condition of lines 72-78 as far as it can be true: forced, or an
    output missing, or an output out of date. *)
Definition due (force : bool) (f : FS) (t : Task) : bool :=
  force || truthy (missing_in f (outputs t)) || truthy (out_of_date f t).

(** Every entry, when its turn comes, has its inputs in place, is due, and
    its task returns. *)
Fixpoint runs_in_turn (force : bool) (items : list (string * Task)) (f : FS) : Prop :=
  match items with
  | [] => True
  | (_, t) :: rest =>
      missing_in f (inputs t) = []
      /\ due force f t = true
      /\ exists f', body (callable t) f = (Ok tt, f') /\ runs_in_turn force rest f'
  end.

(** ** Concrete files and registrations *)
Module Scenario.

(** A routine named [n], defined in [build.py], that writes the files
    [made] with modification time [now]. *)
Definition writes (n : string) (made : list string) (now : Z) : Callable :=
  {| __name__ := n;
     co_filename := "build.py";
     body := fun f => (Ok tt, foldr (fun p g => <[p := now]> g) f made) |}.

Definition files (l : list (string * Z)) : FS := list_to_map l.

Definition start (f : FS) : World :=
  {| fs := f; argv := ["build.py"]; tasks := []; log := [] |}.

(** [src.txt] at 100 and [build.py] at 50; [out.bin] is not there. *)
Definition before_build : FS := files [("src.txt", 100); ("build.py", 50)].

(** The same with [out.bin] at 200: newer than both. *)
Definition after_build : FS :=
  files [("src.txt", 100); ("build.py", 50); ("out.bin", 200)].

Definition build : Callable := writes "build" ["out.bin"] 200.

Definition build_task : Task :=
  entry_of (Some [Str "src.txt"]) (Some [Str "out.bin"]) build.

(** [@task(inputs=['src.txt'], outputs=['out.bin']) def build(): ...] *)
Definition with_build (f : FS) : World :=
  registered (Some [Str "src.txt"]) (Some [Str "out.bin"]) build (start f).

(** [@task() def clean(): ...] *)
Definition clean : Callable := writes "clean" [] 0.

Definition with_clean : World := registered None None clean (start before_build).

(** Three registrations, the third under the name of the first. *)
Definition A1 : Callable := writes "A" ["a1.out"] 10.
Definition B : Callable := writes "B" ["b.out"] 20.
Definition A2 : Callable := writes "A" ["a2.out"] 30.

Definition A_B_A : World :=
  registered None (Some [Str "a2.out"]) A2
    (registered None (Some [Str "b.out"]) B
       (registered None (Some [Str "a1.out"]) A1 (start before_build))).

(** A task whose input [p] is not there, alone and after [clean]. *)
Definition needy_task (p : path) : Task :=
  entry_of (Some [p]) (Some [Str "out.bin"]) build.

Definition with_missing_input (p : path) : World :=
  registered (Some [p]) (Some [Str "out.bin"]) build (start before_build).

Definition clean_then_needy (p : path) : World :=
  registered (Some [p]) (Some [Str "out.bin"]) build with_clean.

(** Outputs older than, newer than and as old as the newest input. *)
Definition mixed : FS :=
  files [("src.txt", 100); ("other.txt", 70); ("build.py", 50);
         ("old.bin", 40); ("out.bin", 200); ("same.bin", 100)].

Definition mixed_task : Task :=
  entry_of (Some [Str "other.txt"; Path "src.txt"])
           (Some [Str "old.bin"; Path "out.bin"; Str "same.bin"]) build.

(** Two routines called [build], from two files. *)
Definition build' : Callable :=
  {| __name__ := "build"; co_filename := "other.py";
     body := fun f => (Ok tt, delete "out.bin" f) |}.

(** [build] with everything in place and fresh, then [clean]. *)
Definition build_then_clean : World :=
  registered None None clean (with_build after_build).

(** A routine that writes [broken.tmp] and then raises. *)
Definition broken : Callable :=
  {| __name__ := "broken"; co_filename := "build.py";
     body := fun f => (Raise (TaskFailure "boom"), <["broken.tmp" := 300]> f) |}.

Definition broken_task : Task := entry_of None (Some [Str "broken.out"]) broken.

(** [clean], then [broken] whose output is missing, then [build]. *)
Definition clean_broken_build : World :=
  registered (Some [Str "src.txt"]) (Some [Str "out.bin"]) build
    (registered None (Some [Str "broken.out"]) broken with_clean).

(** [build] with [out.bin] older than [src.txt]. *)
Definition stale_build : FS :=
  files [("src.txt", 100); ("build.py", 50); ("out.bin", 60)].

(** A task with two inputs of which the second is not there, and one with
    two outputs of which the second is not there. *)
Definition second_input_missing : Task :=
  entry_of (Some [Str "src.txt"; Path "gone.txt"; Str "other.txt"])
           (Some [Str "out.bin"]) build.

Definition second_output_missing : Task :=
  entry_of (Some [Str "src.txt"])
           (Some [Str "out.bin"; Path "gone.bin"; Str "old.bin"]) build.

(** Missing inputs that are all [str], and with a [Path] among them. *)
Definition str_inputs_missing : Task :=
  entry_of (Some [Str "a.txt"; Str "src.txt"; Str "b.txt"]) None build.

Definition path_input_missing : Task :=
  entry_of (Some [Str "a.txt"; Str "src.txt"; Path "b.txt"; Str "c.txt"]) None build.

(** Five registrations under three names. *)
Definition five : list registration :=
  [(None, Some [Str "a1.out"], A1); (None, Some [Str "b.out"], B);
   (None, Some [Str "a2.out"], A2); (None, None, clean);
   (Some [Str "src.txt"], None, B)].

End Scenario.

(** ** The state after a step *)

Lemma emits_emits (a b : list event) (w : World) :
  emits b (emits a w) = emits (a ++ b) w.
Proof. unfold emits; simpl. by rewrite app_assoc. Qed.

Lemma fs_emits (evs : list event) (w : World) : fs (emits evs w) = fs w.
Proof. reflexivity. Qed.

Lemma emits_nil (w : World) : emits [] w = w.
Proof. destruct w; unfold emits; simpl. by rewrite app_nil_r. Qed.

Lemma missing_in_nil_all_exist (f : FS) (ps : list path) :
  missing_in f ps = [] <-> all_exist f ps.
Proof.
  unfold missing_in, all_exist. induction ps as [|p ps IH]; simpl.
  - split; [constructor | done].
  - destruct (file_exists f p) eqn:E; simpl.
    + rewrite IH. split; [by constructor | by inversion 1].
    + split; [done | inversion 1; congruence].
Qed.

Lemma getmtime_exists (p : path) (w : World) :
  file_exists (fs w) p = true ->
  getmtime p w = (Ok (mtime_of (fs w) p), emits [Getmtime p] w).
Proof.
  unfold file_exists, getmtime, mtime_of. intros H.
  apply bool_decide_eq_true in H as [t Ht]. by rewrite Ht.
Qed.

Lemma _missing_paths_run (ps : list path) (w : World) :
  _missing_paths ps w = (Ok (missing_in (fs w) ps), emits (Exists <$> ps) w).
Proof.
  unfold _missing_paths, missing_in. revert w.
  induction ps as [|p ps IH]; intros w; simpl.
  - unfold ret. by rewrite emits_nil.
  - unfold bind at 1 2. unfold os_path_exists at 1. unfold ret at 1.
    unfold bind. rewrite IH. simpl. rewrite emits_emits. simpl.
    unfold ret. by destruct (file_exists (fs w) p).
Qed.

Lemma for_each_getmtime_run (ps : list path) (w : World) :
  all_exist (fs w) ps ->
  for_each getmtime ps w = (Ok (mtime_of (fs w) <$> ps), emits (Getmtime <$> ps) w).
Proof.
  revert w. induction ps as [|p ps IH]; intros w H; simpl.
  - unfold ret. by rewrite emits_nil.
  - inversion H as [|? ? Hp Hps]; subst.
    unfold bind. rewrite (getmtime_exists _ _ Hp).
    rewrite IH by done. simpl. by rewrite emits_emits.
Qed.

Lemma keep_if_older_run (th : Z) (ps : list path) (w : World) :
  all_exist (fs w) ps ->
  keep_if (fun output => t <- getmtime output ;; ret (t <? th)) ps w
  = (Ok (List.filter (fun o => mtime_of (fs w) o <? th) ps), emits (Getmtime <$> ps) w).
Proof.
  revert w. induction ps as [|p ps IH]; intros w H; simpl.
  - unfold ret. by rewrite emits_nil.
  - inversion H as [|? ? Hp Hps]; subst.
    unfold bind at 1 2. rewrite (getmtime_exists _ _ Hp). unfold ret at 1.
    unfold bind. rewrite IH by done. simpl. rewrite emits_emits. simpl.
    unfold ret. by destruct (mtime_of (fs w) p <? th).
Qed.

Lemma _out_of_date_outputs_run (t : Task) (w : World) :
  all_exist (fs w) (inputs t) ->
  all_exist (fs w) (outputs t) ->
  _out_of_date_outputs t w
  = (Ok (out_of_date (fs w) t), emits (staleness_queries (fs w) t) w).
Proof.
  intros Hi Ho. unfold _out_of_date_outputs, out_of_date, staleness_queries,
    modification_threshold, source_modified_time.
  unfold bind at 1. rewrite (for_each_getmtime_run _ _ Hi).
  unfold bind at 1. unfold os_path_exists at 1. rewrite ?fs_emits.
  destruct (file_exists (fs w) (getfile (callable t))) eqn:E.
  - unfold bind at 1. rewrite getmtime_exists by done. rewrite ?fs_emits.
    rewrite keep_if_older_run by done. rewrite ?fs_emits.
    by rewrite !emits_emits.
  - unfold bind at 1. unfold ret at 1.
    rewrite keep_if_older_run by done. rewrite ?fs_emits.
    by rewrite !emits_emits.
Qed.

(** ** One pass through the loop body, case by case *)

Lemma truthy_false {A} (l : list A) : truthy l = false <-> l = [].
Proof. by destruct l. Qed.

Lemma truthy_true {A} (l : list A) : l <> [] -> truthy l = true.
Proof. by destruct l. Qed.

(** Some input is missing: the pass ends in an exception right after the
    existence checks of the inputs. *)
Lemma run_task_inputs_missing (force : bool) (n : string) (t : Task) (w : World) :
  missing_in (fs w) (inputs t) <> [] ->
  run_task force n t w
  = (match str_join ", " (missing_in (fs w) (inputs t)) with
     | Ok listed => Raise (FileNotFoundError (missing_inputs_message n listed))
     | Raise e => Raise e
     end, emits (Exists <$> inputs t) w).
Proof.
  intros H. unfold run_task. unfold bind at 1. rewrite _missing_paths_run.
  rewrite (truthy_true _ H). unfold bind, lift.
  by destruct (str_join ", " (missing_in (fs w) (inputs t))).
Qed.

Lemma run_task_forced (n : string) (t : Task) (w : World) :
  all_exist (fs w) (inputs t) ->
  run_task true n t w
  = call (callable t) (emits ((Exists <$> inputs t) ++ [Print (forced_notice n)]) w).
Proof.
  intros H%missing_in_nil_all_exist. unfold run_task. unfold bind at 1.
  rewrite _missing_paths_run, H. simpl. unfold bind, print.
  by rewrite emits_emits.
Qed.

Lemma run_task_outputs_missing (n : string) (t : Task) (w : World) :
  all_exist (fs w) (inputs t) ->
  missing_in (fs w) (outputs t) <> [] ->
  run_task false n t w
  = call (callable t)
      (emits ((Exists <$> inputs t) ++ (Exists <$> outputs t)
              ++ [Print (missing_outputs_notice n (missing_in (fs w) (outputs t)))]) w).
Proof.
  intros Hi%missing_in_nil_all_exist Ho. unfold run_task. unfold bind at 1.
  rewrite _missing_paths_run, Hi. cbn [truthy].
  unfold bind at 1. rewrite _missing_paths_run. rewrite ?fs_emits.
  rewrite (truthy_true _ Ho). unfold bind, print.
  by rewrite !emits_emits.
Qed.

Lemma run_task_out_of_date (n : string) (t : Task) (w : World) :
  all_exist (fs w) (inputs t) ->
  all_exist (fs w) (outputs t) ->
  out_of_date (fs w) t <> [] ->
  run_task false n t w
  = call (callable t)
      (emits ((Exists <$> inputs t) ++ (Exists <$> outputs t)
              ++ staleness_queries (fs w) t
              ++ [Print (out_of_date_notice n (out_of_date (fs w) t))]) w).
Proof.
  intros Hi Ho Hd. unfold run_task. unfold bind at 1.
  rewrite _missing_paths_run. rewrite (proj2 (missing_in_nil_all_exist _ _) Hi).
  cbn [truthy].
  unfold bind at 1. rewrite _missing_paths_run. rewrite ?fs_emits.
  rewrite (proj2 (missing_in_nil_all_exist _ _) Ho). cbn [truthy].
  unfold bind at 1. rewrite _out_of_date_outputs_run by done. rewrite ?fs_emits.
  rewrite (truthy_true _ Hd). unfold bind, print.
  by rewrite !emits_emits.
Qed.

(** Nothing forces the task, every output is there and none is older than
    the threshold: line 80 is reached and the name [outputs] is not bound. *)
Lemma run_task_fresh (n : string) (t : Task) (w : World) :
  all_exist (fs w) (inputs t) ->
  all_exist (fs w) (outputs t) ->
  out_of_date (fs w) t = [] ->
  run_task false n t w
  = (Raise (NameError "outputs"),
     emits ((Exists <$> inputs t) ++ (Exists <$> outputs t)
            ++ staleness_queries (fs w) t) w).
Proof.
  intros Hi Ho Hd. unfold run_task. unfold bind at 1.
  rewrite _missing_paths_run. rewrite (proj2 (missing_in_nil_all_exist _ _) Hi).
  cbn [truthy].
  unfold bind at 1. rewrite _missing_paths_run. rewrite ?fs_emits.
  rewrite (proj2 (missing_in_nil_all_exist _ _) Ho). cbn [truthy].
  unfold bind at 1. rewrite _out_of_date_outputs_run by done. rewrite ?fs_emits.
  rewrite Hd. cbn [truthy].
  unfold bind, global_truth. simpl.
  by rewrite !emits_emits.
Qed.

(** ** The dictionary *)
Section DictFacts.
Context {V : Type}.
Implicit Types (k : string) (v : V) (d : list (string * V)).

Lemma dict_get_setitem_eq k v d : dict_get k (dict_setitem k v d) = Some v.
Proof.
  induction d as [|[k' v'] d IH]; cbn [dict_get dict_setitem].
  - by case_bool_decide.
  - case_bool_decide; cbn [dict_get]; by case_bool_decide.
Qed.

Lemma dict_get_setitem_ne k k0 v d :
  k0 <> k -> dict_get k0 (dict_setitem k v d) = dict_get k0 d.
Proof.
  intros Hne. induction d as [|[k' v'] d IH]; cbn [dict_get dict_setitem].
  - by case_bool_decide.
  - case_bool_decide; cbn [dict_get]; case_bool_decide; by simplify_eq.
Qed.

Lemma dict_keys_setitem k v d :
  dict_keys (dict_setitem k v d)
  = if bool_decide (k ∈ dict_keys d) then dict_keys d else dict_keys d ++ [k].
Proof.
  unfold dict_keys. induction d as [|[k' v'] d IH]; cbn [dict_setitem fmap list_fmap fst].
  - rewrite bool_decide_eq_false_2; [done | apply not_elem_of_nil].
  - destruct (decide (k = k')) as [<-|Hne].
    + rewrite !bool_decide_eq_true_2; [done | by left | done].
    + rewrite (bool_decide_eq_false_2 (k = k')) by done.
      cbn [fmap list_fmap fst]. rewrite IH.
      destruct (decide (k ∈ d.*1)) as [Hin|Hin].
      * rewrite !bool_decide_eq_true_2; [done | by right | done].
      * rewrite !bool_decide_eq_false_2; [done | | done].
        by intros [?|?]%elem_of_cons.
Qed.

Lemma dict_setitem_fresh k v d :
  k ∉ dict_keys d -> dict_setitem k v d = d ++ [(k, v)].
Proof.
  unfold dict_keys. induction d as [|[k' v'] d IH]; intros H; [done|].
  cbn [fmap list_fmap fst] in H.
  apply not_elem_of_cons in H as [Hne H]. cbn [dict_setitem].
  case_bool_decide; [done|]. by rewrite IH.
Qed.

Lemma dict_setitem_length k v d :
  length (dict_setitem k v d)
  = if bool_decide (k ∈ dict_keys d) then length d else S (length d).
Proof.
  transitivity (length (dict_keys (dict_setitem k v d)));
    [unfold dict_keys; by rewrite length_fmap|].
  rewrite dict_keys_setitem. unfold dict_keys.
  case_bool_decide; rewrite ?length_app, length_fmap; simpl; lia.
Qed.

(** An entry under another name stays where it is. *)
Lemma dict_setitem_other k v d (i : nat) k0 v0 :
  k0 <> k -> d !! i = Some (k0, v0) -> dict_setitem k v d !! i = Some (k0, v0).
Proof.
  intros Hne. revert i.
  induction d as [|[k' v'] d IH]; intros i; cbn [dict_setitem]; [done|].
  case_bool_decide.
  - destruct i; [|done]. intros [= -> ->]. done.
  - destruct i; [done | apply IH].
Qed.

(** Storing twice under one name leaves what storing the second value
    alone leaves. *)
Lemma dict_setitem_twice k v1 v2 d :
  dict_setitem k v2 (dict_setitem k v1 d) = dict_setitem k v2 d.
Proof.
  induction d as [|[k' v'] d IH]; cbn [dict_setitem].
  - by case_bool_decide.
  - case_bool_decide; cbn [dict_setitem]; case_bool_decide; try done.
    by rewrite IH.
Qed.
End DictFacts.

(** C8. Registration only records the task: the decorator hands the
    routine back unchanged; the filesystem, the arguments and the log are
    what they were, so the routine was not called and no path was checked;
    the registry has the new entry under the routine's name, at the place
    that name already had or at the end; and every entry under another
    name is where it was, with the value it had. *)
Theorem C8_registration_only_records
    (inputs0 outputs0 : option (list path)) (func : Callable) (w : World) :
  exists w',
    task inputs0 outputs0 func w = (Ok func, w')
    /\ fs w' = fs w /\ argv w' = argv w /\ log w' = log w
    /\ dict_get (__name__ func) (tasks w') = Some (entry_of inputs0 outputs0 func)
    /\ dict_keys (tasks w')
       = (if bool_decide (__name__ func ∈ dict_keys (tasks w))
          then dict_keys (tasks w) else dict_keys (tasks w) ++ [__name__ func])
    /\ (forall k, k <> __name__ func -> dict_get k (tasks w') = dict_get k (tasks w))
    /\ (forall (i : nat) k v, k <> __name__ func ->
          tasks w !! i = Some (k, v) -> tasks w' !! i = Some (k, v)).
Proof.
  eexists. split; [reflexivity|]. simpl. repeat split.
  - apply dict_get_setitem_eq.
  - apply dict_keys_setitem.
  - intros k Hk. by apply dict_get_setitem_ne.
  - intros i k v Hk. by apply dict_setitem_other.
Qed.

(** C10. The key of an entry is the routine's [__name__] and nothing
    else: after a registration the names in the registry are the ones that
    were there and the routine's own.  So a second routine with the same
    [__name__] takes the entry of the first: the name then leads to the
    second routine, no entry was added, and the registry is what it would
    be had the first routine never been registered. *)
Theorem C10_key_is_function_name
    (i1 o1 i2 o2 : option (list path)) (f1 f2 : Callable) (w : World) :
  __name__ f1 = __name__ f2 ->
  let w1 := registered i1 o1 f1 w in
  let w2 := registered i2 o2 f2 w1 in
  (forall k, k ∈ dict_keys (tasks w1) <-> k ∈ dict_keys (tasks w) \/ k = __name__ f1)
  /\ dict_get (__name__ f1) (tasks w1) = Some (entry_of i1 o1 f1)
  /\ dict_get (__name__ f1) (tasks w2) = Some (entry_of i2 o2 f2)
  /\ dict_keys (tasks w2) = dict_keys (tasks w1)
  /\ length (tasks w2) = length (tasks w1)
  /\ tasks w2 = tasks (registered i2 o2 f2 w).
Proof.
  intros Hn w1 w2. subst w1 w2. unfold registered, task. simpl.
  rewrite <- Hn.
  assert (Hin : __name__ f1 ∈ dict_keys (dict_setitem (__name__ f1)
                   (entry_of i1 o1 f1) (tasks w))).
  { rewrite dict_keys_setitem. case_bool_decide; [done|].
    apply elem_of_app. right. by left. }
  repeat split.
  - rewrite dict_keys_setitem. case_bool_decide; [tauto|].
    rewrite elem_of_app, list_elem_of_singleton. tauto.
  - rewrite dict_keys_setitem. case_bool_decide.
    + intros [?| ->]; done.
    + rewrite elem_of_app, list_elem_of_singleton. tauto.
  - apply dict_get_setitem_eq.
  - apply dict_get_setitem_eq.
  - rewrite dict_keys_setitem. by rewrite bool_decide_eq_true_2.
  - rewrite dict_setitem_length. by rewrite bool_decide_eq_true_2.
  - apply dict_setitem_twice.
Qed.

(** ** What one pass adds to the log *)

Lemma log_call (f : Callable) (w : World) : log (call f w).2 = log w ++ [Call f].
Proof. unfold call. simpl. by destruct (body f (fs w)) as [r f']. Qed.

Lemma truthy_cases {A} (l : list A) :
  (l = [] /\ truthy l = false) \/ (l <> [] /\ truthy l = true).
Proof. destruct l; [by left | by right]. Qed.

Lemma run_task_log (force : bool) (n : string) (t : Task) (w : World) :
  log (run_task force n t w).2 = log w ++ pass_events force n t (fs w).
Proof.
  unfold pass_events, run_notice_and_call.
  destruct (truthy_cases (missing_in (fs w) (inputs t))) as [[Hi ->]|[Hi ->]].
  2: { rewrite run_task_inputs_missing by done. simpl. by rewrite app_nil_r. }
  apply missing_in_nil_all_exist in Hi.
  destruct force.
  { rewrite run_task_forced, log_call by done. simpl.
    by rewrite <- !app_assoc. }
  destruct (truthy_cases (missing_in (fs w) (outputs t))) as [[Ho ->]|[Ho ->]].
  2: { rewrite run_task_outputs_missing, log_call by done. simpl.
       by rewrite <- !app_assoc. }
  apply missing_in_nil_all_exist in Ho.
  destruct (truthy_cases (out_of_date (fs w) t)) as [[Hd ->]|[Hd ->]].
  - rewrite run_task_fresh by done. simpl. by rewrite app_nil_r.
  - rewrite run_task_out_of_date, log_call by done. simpl.
    by rewrite <- !app_assoc.
Qed.

(** Modification times are read by the staleness computation alone, and it
    is entered only without [force], with every input and every output in
    place; each path it reads is then a file that exists. *)
Lemma staleness_queries_exist (f : FS) (t : Task) (p : path) :
  all_exist f (inputs t) -> all_exist f (outputs t) ->
  p ∈ mtime_reads (staleness_queries f t) -> file_exists f p = true.
Proof.
  intros Hi Ho. unfold staleness_queries, mtime_reads.
  rewrite list_elem_of_omap. intros (e & He & Hp).
  destruct e; try done. injection Hp as ->.
  assert (forall ps : list path, Getmtime p ∈ Getmtime <$> ps -> p ∈ ps) as Hin.
  { intros ps (q & [= ->] & Hq)%list_elem_of_fmap. done. }
  unfold all_exist in *. rewrite Forall_forall in Hi, Ho.
  apply elem_of_app in He as [He|He]; [by apply Hi, Hin|].
  apply elem_of_cons in He as [He|He]; [done|].
  apply elem_of_app in He as [He|He]; [|by apply Ho, Hin].
  destruct (file_exists f (getfile (callable t))) eqn:E.
  - apply list_elem_of_singleton in He. by injection He as ->.
  - by apply elem_of_nil in He.
Qed.

Lemma mtime_reads_app (a b : list event) :
  mtime_reads (a ++ b) = mtime_reads a ++ mtime_reads b.
Proof. unfold mtime_reads. apply omap_app. Qed.

Lemma mtime_reads_exists (ps : list path) : mtime_reads (Exists <$> ps) = [].
Proof. induction ps; [done | by simpl]. Qed.

Lemma pass_events_mtime_reads (force : bool) (n : string) (t : Task) (f : FS) (p : path) :
  p ∈ mtime_reads (pass_events force n t f) ->
  force = false /\ all_exist f (inputs t) /\ all_exist f (outputs t)
  /\ file_exists f p = true.
Proof.
  unfold pass_events, run_notice_and_call.
  rewrite mtime_reads_app, mtime_reads_exists. simpl.
  destruct (truthy_cases (missing_in f (inputs t))) as [[Hi ->]|[Hi ->]].
  2: { by intros ?%elem_of_nil. }
  apply missing_in_nil_all_exist in Hi.
  destruct force; [by intros ?%elem_of_nil|].
  rewrite mtime_reads_app, mtime_reads_exists. simpl.
  destruct (truthy_cases (missing_in f (outputs t))) as [[Ho ->]|[Ho ->]].
  2: { by intros ?%elem_of_nil. }
  apply missing_in_nil_all_exist in Ho.
  rewrite mtime_reads_app. intros H. repeat split; try done.
  apply elem_of_app in H as [H|H]; [by eapply staleness_queries_exist|].
  destruct (truthy (out_of_date f t)); simpl in H; by apply elem_of_nil in H.
Qed.

(** [run_tasks] has a line that prints "Skipped task ...", and no pass
    reaches it. *)
Lemma pass_never_skips (force : bool) (n m : string) (t : Task) (f : FS) :
  skip_notice m ∉ prints (pass_events force n t f).
Proof.
  unfold prints. rewrite list_elem_of_omap. intros (e & He & Hs).
  destruct e as [| |line|]; try done. injection Hs as ->.
  unfold pass_events, run_notice_and_call in He.
  assert (forall (ps : list path) (c : path -> event) s,
            (forall q, c q <> Print s) -> Print s ∉ c <$> ps) as Hno.
  { intros ps c s Hc (q & Hq & _)%list_elem_of_fmap. by eapply Hc. }
  assert (Hst : Print (skip_notice m) ∉ staleness_queries f t).
  { unfold staleness_queries. rewrite !elem_of_app, elem_of_cons, elem_of_app.
    intros [H|[H|[H|H]]]; try done.
    - by eapply Hno in H.
    - destruct (file_exists f (getfile (callable t)));
        [by apply list_elem_of_singleton in H | by apply elem_of_nil in H].
    - by eapply Hno in H. }
  apply elem_of_app in He as [He|He]; [by eapply Hno in He|].
  destruct (truthy (missing_in f (inputs t))); [by apply elem_of_nil in He|].
  destruct force.
  { apply elem_of_cons in He as [He|He]; [discriminate He|].
    by apply list_elem_of_singleton in He. }
  apply elem_of_app in He as [He|He]; [by eapply Hno in He|].
  destruct (truthy (missing_in f (outputs t))).
  { apply elem_of_cons in He as [He|He]; [discriminate He|].
    by apply list_elem_of_singleton in He. }
  apply elem_of_app in He as [He|He]; [done|].
  destruct (truthy (out_of_date f t)); [|by apply elem_of_nil in He].
  apply elem_of_cons in He as [He|He]; [discriminate He|].
  by apply list_elem_of_singleton in He.
Qed.

(** ** The loop *)

Lemma run_tasks_unfold (force : bool) (w : World) :
  run_tasks force w = for_items (effective_force force w) (tasks w) w.
Proof. reflexivity. Qed.

Lemma for_items_cons (force : bool) (n : string) (t : Task)
    (rest : list (string * Task)) (w : World) :
  for_items force ((n, t) :: rest) w
  = match run_task force n t w with
    | (Ok _, w1) => for_items force rest w1
    | (Raise e, w1) => (Raise e, w1)
    end.
Proof. reflexivity. Qed.

Lemma for_items_app (force : bool) (pre rest : list (string * Task)) (w : World) :
  for_items force (pre ++ rest) w
  = match for_items force pre w with
    | (Ok _, w1) => for_items force rest w1
    | (Raise e, w1) => (Raise e, w1)
    end.
Proof.
  revert w. induction pre as [|[n t] pre IH]; intros w; [done|].
  rewrite <- app_comm_cons, !for_items_cons.
  destruct (run_task force n t w) as [[[]|e] w1]; [apply IH | done].
Qed.

(** The loop stops at the first entry that has an input missing when its
    turn comes: with the entries before it done, the run ends in the
    exception of that entry, the log holding nothing after the existence
    checks of its inputs. *)
Lemma for_items_stops_at_missing_input (force : bool)
    (pre post : list (string * Task)) (n : string) (t : Task) (w w1 : World) :
  for_items force pre w = (Ok tt, w1) ->
  missing_in (fs w1) (inputs t) <> [] ->
  for_items force (pre ++ (n, t) :: post) w
  = (match str_join ", " (missing_in (fs w1) (inputs t)) with
     | Ok listed => Raise (FileNotFoundError (missing_inputs_message n listed))
     | Raise e => Raise e
     end, emits (Exists <$> inputs t) w1).
Proof.
  intros Hpre Hmiss. rewrite for_items_app, Hpre, for_items_cons.
  rewrite run_task_inputs_missing by done.
  by destruct (str_join ", " (missing_in (fs w1) (inputs t))).
Qed.

(** When every missing input is a [str], the exception is the
    [FileNotFoundError] of line 66, naming the task and the missing
    inputs. *)
Lemma missing_str_inputs_abort_run (force : bool)
    (pre post : list (string * Task)) (n : string) (t : Task) (w w1 : World)
    (names : list string) :
  tasks w = pre ++ (n, t) :: post ->
  for_items (effective_force force w) pre w = (Ok tt, w1) ->
  missing_in (fs w1) (inputs t) <> [] ->
  str_texts (missing_in (fs w1) (inputs t)) = Some names ->
  run_tasks force w
  = (Raise (FileNotFoundError (missing_inputs_message n (join ", " names))),
     emits (Exists <$> inputs t) w1).
Proof.
  intros Ht Hpre Hmiss Hstr. rewrite run_tasks_unfold, Ht.
  rewrite (for_items_stops_at_missing_input _ _ _ _ _ _ _ Hpre Hmiss).
  unfold str_texts in Hstr. unfold str_join.
  destruct (strs_from 0 (missing_in (fs w1) (inputs t))); by simplify_eq.
Qed.

(** C9. Force does not get a task past the check of its inputs.  Whatever
    [force] is, and whether or not [--force] is among the arguments: when
    the loop comes to an entry with an input that does not exist, the run
    ends in an exception (the [FileNotFoundError] of line 66, or the
    [TypeError] of the [join] inside it), and the log ends with the
    existence checks of that entry's inputs: the entry is not called. *)
Theorem C9_force_does_not_bypass_input_check (force : bool)
    (pre post : list (string * Task)) (n : string) (t : Task) (w w1 : World) :
  tasks w = pre ++ (n, t) :: post ->
  for_items (effective_force force w) pre w = (Ok tt, w1) ->
  missing_in (fs w1) (inputs t) <> [] ->
  exists e w',
    run_tasks force w = (Raise e, w')
    /\ ((exists listed, e = FileNotFoundError (missing_inputs_message n listed))
        \/ (exists i, e = TypeError i))
    /\ log w' = log w1 ++ (Exists <$> inputs t)
    /\ calls (Exists <$> inputs t) = []
    /\ fs w' = fs w1.
Proof.
  intros Ht Hpre Hmiss. rewrite run_tasks_unfold, Ht.
  rewrite (for_items_stops_at_missing_input _ _ _ _ _ _ _ Hpre Hmiss).
  assert (Hc : calls (Exists <$> inputs t) = []).
  { unfold calls. clear. induction (inputs t) as [|p ps IH]; [done | exact IH]. }
  unfold str_join.
  assert (Hs : forall l i, match strs_from i l with
                           | Ok _ => True
                           | Raise e => exists j, e = TypeError j
                           end).
  { induction l as [|[s|s] l IH]; intros i; simpl; [done | | by eexists].
    specialize (IH (S i)). by destruct (strs_from (S i) l). }
  specialize (Hs (missing_in (fs w1) (inputs t)) 0%nat).
  destruct (strs_from 0 (missing_in (fs w1) (inputs t))) as [r|e].
  - eexists _, _. split; [reflexivity|]. split; [left; by eexists|]. done.
  - destruct Hs as [j ->].
    eexists _, _. split; [reflexivity|]. split; [right; by eexists|]. done.
Qed.

(** ** Registration order *)

(** Routines with names that differ from each other and from those
    already registered are appended in the order of their registration. *)
Lemma registry_order_is_registration_order (rs : list registration) (w : World) :
  NoDup ((fun r => __name__ (routine r)) <$> rs) ->
  (forall r, r ∈ rs -> __name__ (routine r) ∉ dict_keys (tasks w)) ->
  tasks (register_all rs w) = tasks w ++ (entry <$> rs).
Proof.
  revert w. induction rs as [|r rs IH]; intros w Hnd Hnew.
  - simpl. by rewrite app_nil_r.
  - rewrite fmap_cons in Hnd. apply NoDup_cons in Hnd as [Hr Hnd].
    assert (Ht : tasks (registered r.1.1 r.1.2 (routine r) w) = tasks w ++ [entry r]).
    { unfold registered, task. simpl. apply dict_setitem_fresh, Hnew. by left. }
    simpl. rewrite IH; [| done |].
    + rewrite Ht, <- app_assoc. done.
    + intros r' Hr'. rewrite Ht. unfold dict_keys. rewrite fmap_app. simpl.
      rewrite elem_of_app, list_elem_of_singleton. intros [Hin|Heq].
      * eapply Hnew; [by right | exact Hin].
      * apply Hr. rewrite <- Heq. by apply (list_elem_of_fmap_2 (fun r => __name__ (routine r))).
Qed.

(** ** A forced run *)

Lemma calls_app (a b : list event) : calls (a ++ b) = calls a ++ calls b.
Proof. unfold calls. apply omap_app. Qed.

Lemma prints_app (a b : list event) : prints (a ++ b) = prints a ++ prints b.
Proof. unfold prints. apply omap_app. Qed.

Lemma calls_exists (ps : list path) : calls (Exists <$> ps) = [].
Proof. induction ps as [|p ps IH]; [done | exact IH]. Qed.

Lemma prints_exists (ps : list path) : prints (Exists <$> ps) = [].
Proof. induction ps as [|p ps IH]; [done | exact IH]. Qed.

Lemma calls_forced_events (items : list (string * Task)) :
  calls (forced_events items) = (fun item => callable item.2) <$> items.
Proof.
  induction items as [|[n t] items IH]; [done|]. simpl forced_events.
  rewrite calls_app, calls_exists. simpl. f_equal. exact IH.
Qed.

Lemma prints_forced_events (items : list (string * Task)) :
  prints (forced_events items) = (fun item => forced_notice item.1) <$> items.
Proof.
  induction items as [|[n t] items IH]; [done|]. simpl forced_events.
  rewrite prints_app, prints_exists. simpl. f_equal. exact IH.
Qed.

Lemma mtime_reads_forced_events (items : list (string * Task)) :
  mtime_reads (forced_events items) = [].
Proof.
  induction items as [|[n t] items IH]; [done|]. simpl forced_events.
  rewrite mtime_reads_app, mtime_reads_exists. simpl. exact IH.
Qed.

Lemma for_items_forced (items : list (string * Task)) (w : World) :
  inputs_exist_in_turn items (fs w) ->
  exists w', for_items true items w = (Ok tt, w')
             /\ log w' = log w ++ forced_events items.
Proof.
  revert w. induction items as [|[n t] items IH]; intros w H.
  - exists w. split; [done|]. simpl. by rewrite app_nil_r.
  - destruct H as (Hi & f' & Hb & Hrest).
    apply missing_in_nil_all_exist in Hi.
    rewrite for_items_cons, run_task_forced by done.
    unfold call. cbn zeta. rewrite !fs_emits, Hb.
    destruct (IH (set_fs f' (emits [Call (callable t)]
                (emits ((Exists <$> inputs t) ++ [Print (forced_notice n)]) w))))
      as (w' & Hrun & Hlog); [done|].
    exists w'. split; [done|]. rewrite Hlog. simpl.
    unfold run_notice_and_call. by rewrite <- !app_assoc.
Qed.

(** C6, as the code has it.  A forced run in which every task returns
    calls every registered task once, in the order of the registry.  With
    [force] given or [--force] among the arguments, every entry finding
    its inputs in place when its turn comes and every task returning
    without raising, the run ends normally; what it logs is, entry after
    entry, the checks of the inputs, the notice "(forced)" and the call.
    The calls are the routines of the registry in its order, one each; the
    notices are the forced ones; no modification time is read, so the
    state of the outputs plays no part.  When the registry was filled by
    registering routines of different names, the calls are those routines
    in the order they were registered. *)
Theorem C6_forced_run_calls_every_task (force : bool) (w : World) :
  effective_force force w = true ->
  inputs_exist_in_turn (tasks w) (fs w) ->
  exists w',
    run_tasks force w = (Ok tt, w')
    /\ log w' = log w ++ forced_events (tasks w)
    /\ calls (forced_events (tasks w)) = (fun item => callable item.2) <$> tasks w
    /\ prints (forced_events (tasks w)) = (fun item => forced_notice item.1) <$> tasks w
    /\ mtime_reads (forced_events (tasks w)) = []
    /\ (forall (rs : list registration) (w0 : World),
          tasks w0 = [] ->
          NoDup ((fun r => __name__ (routine r)) <$> rs) ->
          tasks w = tasks (register_all rs w0) ->
          calls (forced_events (tasks w)) = routine <$> rs).
Proof.
  intros Hf Hready. rewrite run_tasks_unfold, Hf.
  destruct (for_items_forced _ _ Hready) as (w' & Hrun & Hlog).
  exists w'. repeat split; try done.
  - apply calls_forced_events.
  - apply prints_forced_events.
  - apply mtime_reads_forced_events.
  - intros rs w0 Hw0 Hnd Hw. rewrite calls_forced_events, Hw.
    rewrite registry_order_is_registration_order; [| done |].
    + rewrite Hw0. simpl. by rewrite <- list_fmap_compose.
    + intros r _. rewrite Hw0. apply not_elem_of_nil.
Qed.

(** ** Missing outputs *)

(** C7, as the code has it.  A task with an output that does not exist,
    its inputs in place: without [force] the pass checks the inputs and the
    outputs, prints the notice "missing outputs" with the missing ones and
    calls the task.  Whatever [force] is, the pass reads no modification
    time.  For any task at all, a modification time is read only without
    [force] and with no output missing, and only of a file that exists. *)
Theorem C7_missing_output_runs_without_mtime_read (n : string) (t : Task) (w : World) :
  missing_in (fs w) (inputs t) = [] ->
  missing_in (fs w) (outputs t) <> [] ->
  run_task false n t w
  = call (callable t)
      (emits ((Exists <$> inputs t) ++ (Exists <$> outputs t)
              ++ [Print (missing_outputs_notice n (missing_in (fs w) (outputs t)))]) w)
  /\ (forall force, mtime_reads (pass_events force n t (fs w)) = [])
  /\ (forall force' n' t',
        log (run_task force' n' t' w).2 = log w ++ pass_events force' n' t' (fs w)
        /\ forall p, p ∈ mtime_reads (pass_events force' n' t' (fs w)) ->
                     force' = false /\ missing_in (fs w) (outputs t') = []
                     /\ file_exists (fs w) p = true).
Proof.
  intros Hi Ho. split; [|split].
  - apply run_task_outputs_missing; [by apply missing_in_nil_all_exist | done].
  - intros force. destruct (mtime_reads (pass_events force n t (fs w))) as [|p l] eqn:E;
      [done|].
    assert (Hp : p ∈ mtime_reads (pass_events force n t (fs w))) by (rewrite E; by left).
    apply pass_events_mtime_reads in Hp as (_ & _ & Hall & _).
    by apply missing_in_nil_all_exist in Hall.
  - intros force' n' t'. split; [apply run_task_log|].
    intros p (Hf & _ & Hall & Hp)%pass_events_mtime_reads.
    by apply missing_in_nil_all_exist in Hall.
Qed.

(** ** The staleness computation *)

Lemma fold_left_max_le_init (l : list Z) (a : Z) : a <= fold_left Z.max l a.
Proof.
  revert a. induction l as [|x l IH]; intros a; simpl; [lia|].
  specialize (IH (Z.max a x)). lia.
Qed.

Lemma fold_left_max_upper (l : list Z) (a x : Z) :
  x ∈ l -> x <= fold_left Z.max l a.
Proof.
  revert a. induction l as [|y l IH]; intros a; simpl.
  - by intros ?%elem_of_nil.
  - intros [->|Hx]%elem_of_cons; [|by apply IH].
    pose proof (fold_left_max_le_init l (Z.max a y)). lia.
Qed.

Lemma fold_left_max_attained (l : list Z) (a : Z) :
  fold_left Z.max l a = a \/ fold_left Z.max l a ∈ l.
Proof.
  revert a. induction l as [|y l IH]; intros a; simpl; [by left|].
  destruct (IH (Z.max a y)) as [H|H].
  - rewrite H. destruct (Z.max_spec a y) as [[_ ->]|[_ ->]]; [right; by left | by left].
  - right. by right.
Qed.

Lemma max_default_upper (xs : list Z) (d x : Z) : x ∈ xs -> x <= max_default xs d.
Proof.
  destruct xs as [|y xs]; simpl; [by intros ?%elem_of_nil|].
  intros [->|Hx]%elem_of_cons; [apply fold_left_max_le_init | by apply fold_left_max_upper].
Qed.

Lemma max_default_attained (xs : list Z) (d : Z) : xs <> [] -> max_default xs d ∈ xs.
Proof.
  destruct xs as [|y xs]; simpl; [done|]. intros _.
  destruct (fold_left_max_attained xs y) as [->|H]; [by left | by right].
Qed.

Lemma newest_input_meets_spec (f : FS) (t : Task) :
  spec_newest_input_time f t (max_default (mtime_of f <$> inputs t) 0).
Proof.
  unfold spec_newest_input_time. destruct (inputs t) as [|p ps] eqn:E; [done|].
  split.
  - assert (H : mtime_of f <$> p :: ps <> []) by done.
    apply (max_default_attained _ 0), list_elem_of_fmap in H as (q & Hq & Hin).
    by exists q.
  - intros q Hq. apply max_default_upper. by apply list_elem_of_fmap_2.
Qed.

Lemma source_modified_meets_spec (f : FS) (t : Task) :
  spec_source_modified_time f t (source_modified_time f t).
Proof.
  unfold spec_source_modified_time, source_modified_time.
  destruct (file_exists f (getfile (callable t))); [by left | by right].
Qed.

(** C5. With the inputs and outputs of a task in place,
    [_out_of_date_outputs] returns the outputs, in their order, whose
    modification time is strictly below the threshold; the threshold is
    the larger of the newest input time (0 for a task without inputs) and
    the time of the file that defines the routine (0 when that file is not
    there).  An output as old as the threshold is not returned.  The
    filesystem is only read. *)
Theorem C5_out_of_date_set (t : Task) (w : World) :
  missing_in (fs w) (inputs t) = [] ->
  missing_in (fs w) (outputs t) = [] ->
  exists newest_input_time source_modified_time outdated w',
    _out_of_date_outputs t w = (Ok outdated, w')
    /\ fs w' = fs w
    /\ spec_newest_input_time (fs w) t newest_input_time
    /\ spec_source_modified_time (fs w) t source_modified_time
    /\ outdated
       = List.filter
           (fun o => mtime_of (fs w) o <? Z.max newest_input_time source_modified_time)
           (outputs t)
    /\ (forall o, o ∈ outdated <->
                  o ∈ outputs t
                  /\ mtime_of (fs w) o < Z.max newest_input_time source_modified_time)
    /\ (forall o, mtime_of (fs w) o = Z.max newest_input_time source_modified_time ->
                  o ∉ outdated).
Proof.
  intros Hi%missing_in_nil_all_exist Ho%missing_in_nil_all_exist.
  exists (max_default (mtime_of (fs w) <$> inputs t) 0), (source_modified_time (fs w) t).
  eexists _, _. split; [by apply _out_of_date_outputs_run|].
  split; [done|]. split; [apply newest_input_meets_spec|].
  split; [apply source_modified_meets_spec|].
  split; [done|].
  assert (Hmem : forall o, o ∈ out_of_date (fs w) t <->
                   o ∈ outputs t /\ mtime_of (fs w) o < modification_threshold (fs w) t).
  { intros o. unfold out_of_date. rewrite !list_elem_of_In, filter_In.
    by rewrite Z.ltb_lt. }
  split; [exact Hmem|].
  intros o Heq [_ Hlt]%Hmem. unfold modification_threshold in Hlt. lia.
Qed.

(** A task without outputs, its inputs in place and nothing forcing it:
    no output is missing and none is out of date, so line 80 is reached
    and the pass ends in the [NameError]; the task is not called. *)
Lemma run_task_no_outputs (n : string) (t : Task) (w : World) :
  outputs t = [] ->
  missing_in (fs w) (inputs t) = [] ->
  run_task false n t w
  = (Raise (NameError "outputs"),
     emits ((Exists <$> inputs t) ++ staleness_queries (fs w) t) w)
  /\ calls ((Exists <$> inputs t) ++ staleness_queries (fs w) t) = [].
Proof.
  intros Ho Hi%missing_in_nil_all_exist. split.
  - rewrite run_task_fresh; try done.
    + by rewrite Ho.
    + rewrite Ho. constructor.
    + unfold out_of_date. by rewrite Ho.
  - rewrite calls_app, calls_exists. unfold staleness_queries. rewrite Ho.
    rewrite calls_app. simpl.
    assert (Hg : forall ps : list path, calls (Getmtime <$> ps) = []).
    { induction ps as [|p ps IH]; [done | exact IH]. }
    rewrite Hg. by destruct (file_exists (fs w) (getfile (callable t))).
Qed.

(** ** Registering a name again *)

(** C1, as the code has it.  Register A, then B, then a routine with A's
    name again, into an empty registry: the registry holds two entries,
    A's name first with what the last registration gave, B second, and
    [run_tasks] goes through them in that order, A's entry before B's. *)
Theorem C1_second_registration_keeps_place
    (iA oA iB oB iA' oA' : option (list path)) (A B A' : Callable)
    (force : bool) (w : World) :
  tasks w = [] ->
  __name__ A' = __name__ A ->
  __name__ B <> __name__ A ->
  let w3 := registered iA' oA' A' (registered iB oB B (registered iA oA A w)) in
  tasks w3 = [(__name__ A, entry_of iA' oA' A'); (__name__ B, entry_of iB oB B)]
  /\ run_tasks force w3
     = (run_task (effective_force force w3) (__name__ A) (entry_of iA' oA' A') ;;;
        run_task (effective_force force w3) (__name__ B) (entry_of iB oB B) ;;;
        ret tt) w3.
Proof.
  intros Hw HA HB w3.
  assert (Ht : tasks w3
               = [(__name__ A, entry_of iA' oA' A'); (__name__ B, entry_of iB oB B)]).
  { subst w3. unfold registered, task. simpl. rewrite Hw, HA.
    cbn [dict_setitem]. rewrite (bool_decide_eq_false_2 _ HB).
    cbn [dict_setitem]. by rewrite bool_decide_eq_true_2. }
  split; [exact Ht|]. rewrite run_tasks_unfold, Ht. reflexivity.
Qed.

(** ** The code on concrete runs *)

(** C1, as the claim has it, fails: after A, B and A again the names stand
    in the order A, B, and the run (nothing forced, both outputs missing)
    calls the second A routine and then B. *)
Lemma C1_counterexample :
  dict_keys (tasks Scenario.A_B_A) = ["A"; "B"]
  /\ (run_tasks false Scenario.A_B_A).1 = Ok tt
  /\ prints (log (run_tasks false Scenario.A_B_A).2)
     = ["Running task A (missing outputs: a2.out)...";
        "Running task B (missing outputs: b.out)..."]
  /\ calls (log (run_tasks false Scenario.A_B_A).2) = [Scenario.A2; Scenario.B]
  /\ calls (log (run_tasks false Scenario.A_B_A).2) <> [Scenario.B; Scenario.A2].
Proof.
  repeat split; try (vm_compute; reflexivity).
  intros H. vm_compute in H. discriminate H.
Qed.

(** C2, on the code.  [build] reads [src.txt] and writes [out.bin].  The
    first run finds [out.bin] missing and calls [build]; then the inputs
    and the output are in place and the output is not out of date.  The
    second run does not skip the task: it ends in the [NameError] of line
    80, after the queries of the staleness computation, with no notice
    printed.  [build] was called once over the two runs. *)
Theorem C2_fresh_task_raises_instead_of_skipping :
  let first := run_tasks false (Scenario.with_build Scenario.before_build) in
  let second := run_tasks false first.2 in
  first.1 = Ok tt
  /\ log first.2
     = [Exists (Str "src.txt"); Exists (Str "out.bin");
        Print "Running task build (missing outputs: out.bin)...";
        Call Scenario.build]
  /\ missing_in (fs first.2) (inputs Scenario.build_task) = []
  /\ missing_in (fs first.2) (outputs Scenario.build_task) = []
  /\ out_of_date (fs first.2) Scenario.build_task = []
  /\ second.1 = Raise (NameError "outputs")
  /\ log second.2
     = log first.2
       ++ [Exists (Str "src.txt"); Exists (Str "out.bin");
           Getmtime (Str "src.txt"); Exists (Str "build.py");
           Getmtime (Str "build.py"); Getmtime (Str "out.bin")]
  /\ prints (log second.2) = ["Running task build (missing outputs: out.bin)..."]
  /\ calls (log second.2) = [Scenario.build].
Proof. repeat split; vm_compute; reflexivity. Qed.

(** C3, on the code.  [clean] has no inputs and no outputs.  A run without
    [force] does not call it: after looking at the file that defines it,
    the run ends in the [NameError] of line 80. *)
Theorem C3_task_without_outputs_is_not_run :
  tasks Scenario.with_clean = [("clean", entry_of None None Scenario.clean)]
  /\ outputs (entry_of None None Scenario.clean) = []
  /\ (run_tasks false Scenario.with_clean).1 = Raise (NameError "outputs")
  /\ log (run_tasks false Scenario.with_clean).2
     = [Exists (Str "build.py"); Getmtime (Str "build.py")]
  /\ calls (log (run_tasks false Scenario.with_clean).2) = [].
Proof. repeat split; vm_compute; reflexivity. Qed.

(** C4, on the code.  The one input of [build] is not there.  Given as a
    [Path], the run ends in the [TypeError] of [", ".join(missing)]; given
    as a [str], it ends in the [FileNotFoundError] that names the task and
    the input.  Either way the log holds the existence check of the input
    and nothing else: [build] is not called. *)
Theorem C4_missing_path_input_raises_type_error :
  let as_path := run_tasks false (Scenario.with_missing_input (Path "missing.txt")) in
  let as_str := run_tasks false (Scenario.with_missing_input (Str "missing.txt")) in
  as_path.1 = Raise (TypeError 0)
  /\ log as_path.2 = [Exists (Path "missing.txt")]
  /\ as_str.1
     = Raise (FileNotFoundError
                "Cannot run task build because the following inputs are missing: missing.txt")
  /\ log as_str.2 = [Exists (Str "missing.txt")].
Proof. repeat split; vm_compute; reflexivity. Qed.

(** Called on its own with an output that is not there,
    [_out_of_date_outputs] fails in [getmtime]: the check of the missing
    outputs before it is what keeps [run_tasks] from this. *)
Lemma staleness_on_missing_output_raises :
  (_out_of_date_outputs Scenario.build_task
     (Scenario.with_build Scenario.before_build)).1
  = Raise (OSError "out.bin").
Proof. vm_compute. reflexivity. Qed.

(** C6, as the claim has it, fails when a task raises.  Three tasks are
    registered, [clean], [broken] and [build]; the inputs of all three
    exist, before the run and after it.  The forced run calls [clean] and
    [broken], ends in the exception [broken] raised, and never calls
    [build]. *)
Lemma C6_counterexample :
  let w := Scenario.clean_broken_build in
  dict_keys (tasks w) = ["clean"; "broken"; "build"]
  /\ (fun item => missing_in (fs w) (inputs item.2)) <$> tasks w = [[]; []; []]
  /\ (fun item => missing_in (fs (run_tasks true w).2) (inputs item.2)) <$> tasks w
     = [[]; []; []]
  /\ (run_tasks true w).1 = Raise (TaskFailure "boom")
  /\ prints (log (run_tasks true w).2)
     = ["Running task clean (forced)..."; "Running task broken (forced)..."]
  /\ calls (log (run_tasks true w).2) = [Scenario.clean; Scenario.broken].
Proof. repeat split; vm_compute; reflexivity. Qed.

(** C7, as the claim has it, fails under [force]: [out.bin] does not
    exist, and the forced run gives the reason "forced". *)
Lemma C7_counterexample :
  missing_in (fs (Scenario.with_build Scenario.before_build))
             (outputs Scenario.build_task) = [Str "out.bin"]
  /\ (run_tasks true (Scenario.with_build Scenario.before_build)).1 = Ok tt
  /\ log (run_tasks true (Scenario.with_build Scenario.before_build)).2
     = [Exists (Str "src.txt"); Print "Running task build (forced)...";
        Call Scenario.build].
Proof. repeat split; vm_compute; reflexivity. Qed.

(** ** The theorems at work on the concrete runs *)

Lemma C1_second_registration_keeps_place_witness :
  tasks Scenario.A_B_A
  = [("A", entry_of None (Some [Str "a2.out"]) Scenario.A2);
     ("B", entry_of None (Some [Str "b.out"]) Scenario.B)]
  /\ run_tasks false Scenario.A_B_A
     = (run_task (effective_force false Scenario.A_B_A) "A"
          (entry_of None (Some [Str "a2.out"]) Scenario.A2) ;;;
        run_task (effective_force false Scenario.A_B_A) "B"
          (entry_of None (Some [Str "b.out"]) Scenario.B) ;;;
        ret tt) Scenario.A_B_A.
Proof.
  apply (C1_second_registration_keeps_place
           None (Some [Str "a1.out"]) None (Some [Str "b.out"])
           None (Some [Str "a2.out"])
           Scenario.A1 Scenario.B Scenario.A2 false
           (Scenario.start Scenario.before_build)).
  - reflexivity.
  - reflexivity.
  - discriminate.
Defined.

Lemma C5_out_of_date_set_witness :
  let t := Scenario.mixed_task in
  let w := Scenario.start Scenario.mixed in
  (_out_of_date_outputs t w).1 = Ok [Str "old.bin"]
  /\ exists newest_input_time source_modified_time outdated w',
       _out_of_date_outputs t w = (Ok outdated, w')
       /\ fs w' = fs w
       /\ spec_newest_input_time (fs w) t newest_input_time
       /\ spec_source_modified_time (fs w) t source_modified_time
       /\ outdated
          = List.filter
              (fun o => mtime_of (fs w) o <? Z.max newest_input_time source_modified_time)
              (outputs t)
       /\ (forall o, o ∈ outdated <->
                     o ∈ outputs t
                     /\ mtime_of (fs w) o < Z.max newest_input_time source_modified_time)
       /\ (forall o, mtime_of (fs w) o = Z.max newest_input_time source_modified_time ->
                     o ∉ outdated).
Proof.
  split; [vm_compute; reflexivity|].
  apply (C5_out_of_date_set Scenario.mixed_task (Scenario.start Scenario.mixed)).
  - vm_compute; reflexivity.
  - vm_compute; reflexivity.
Defined.

Lemma C6_forced_run_calls_every_task_witness :
  let w := Scenario.build_then_clean in
  exists w',
    run_tasks true w = (Ok tt, w')
    /\ log w' = log w ++ forced_events (tasks w)
    /\ calls (forced_events (tasks w)) = (fun item => callable item.2) <$> tasks w
    /\ prints (forced_events (tasks w)) = (fun item => forced_notice item.1) <$> tasks w
    /\ mtime_reads (forced_events (tasks w)) = []
    /\ (forall (rs : list registration) (w0 : World),
          tasks w0 = [] ->
          NoDup ((fun r => __name__ (routine r)) <$> rs) ->
          tasks w = tasks (register_all rs w0) ->
          calls (forced_events (tasks w)) = routine <$> rs).
Proof.
  apply (C6_forced_run_calls_every_task true Scenario.build_then_clean).
  - reflexivity.
  - split; [vm_compute; reflexivity|].
    eexists. split; [reflexivity|].
    split; [vm_compute; reflexivity|].
    eexists. split; [reflexivity|]. exact I.
Defined.

Lemma C7_missing_output_runs_without_mtime_read_witness :
  let t := Scenario.build_task in
  let w := Scenario.with_build Scenario.before_build in
  run_task false "build" t w
  = call (callable t)
      (emits ((Exists <$> inputs t) ++ (Exists <$> outputs t)
              ++ [Print (missing_outputs_notice "build" (missing_in (fs w) (outputs t)))]) w)
  /\ (forall force, mtime_reads (pass_events force "build" t (fs w)) = [])
  /\ (forall force' n' t',
        log (run_task force' n' t' w).2 = log w ++ pass_events force' n' t' (fs w)
        /\ forall p, p ∈ mtime_reads (pass_events force' n' t' (fs w)) ->
                     force' = false /\ missing_in (fs w) (outputs t') = []
                     /\ file_exists (fs w) p = true).
Proof.
  apply (C7_missing_output_runs_without_mtime_read "build" Scenario.build_task
           (Scenario.with_build Scenario.before_build)).
  - vm_compute; reflexivity.
  - vm_compute; discriminate.
Defined.

Lemma C9_force_does_not_bypass_input_check_witness :
  let w := Scenario.clean_then_needy (Path "missing.txt") in
  let w1 := (for_items true [("clean", entry_of None None Scenario.clean)] w).2 in
  let t := Scenario.needy_task (Path "missing.txt") in
  exists e w',
    run_tasks true w = (Raise e, w')
    /\ ((exists listed, e = FileNotFoundError (missing_inputs_message "build" listed))
        \/ (exists i, e = TypeError i))
    /\ log w' = log w1 ++ (Exists <$> inputs t)
    /\ calls (Exists <$> inputs t) = []
    /\ fs w' = fs w1.
Proof.
  apply (C9_force_does_not_bypass_input_check true
           [("clean", entry_of None None Scenario.clean)] [] "build"
           (Scenario.needy_task (Path "missing.txt"))
           (Scenario.clean_then_needy (Path "missing.txt"))).
  - reflexivity.
  - reflexivity.
  - vm_compute; discriminate.
Defined.

Lemma C10_key_is_function_name_witness :
  let w := Scenario.start Scenario.before_build in
  let w1 := registered None (Some [Str "out.bin"]) Scenario.build w in
  let w2 := registered (Some [Str "src.txt"]) None Scenario.build' w1 in
  co_filename Scenario.build <> co_filename Scenario.build'
  /\ (forall k, k ∈ dict_keys (tasks w1) <-> k ∈ dict_keys (tasks w) \/ k = "build")
  /\ dict_get "build" (tasks w1) = Some (entry_of None (Some [Str "out.bin"]) Scenario.build)
  /\ dict_get "build" (tasks w2) = Some (entry_of (Some [Str "src.txt"]) None Scenario.build')
  /\ dict_keys (tasks w2) = dict_keys (tasks w1)
  /\ length (tasks w2) = length (tasks w1)
  /\ tasks w2 = tasks (registered (Some [Str "src.txt"]) None Scenario.build' w).
Proof.
  split; [discriminate|].
  apply (C10_key_is_function_name None (Some [Str "out.bin"]) (Some [Str "src.txt"]) None
           Scenario.build Scenario.build' (Scenario.start Scenario.before_build)).
  reflexivity.
Defined.

(** * Further properties of the module *)

(** ** [_missing_paths] *)

Lemma kept_sublist {A} (c : A -> bool) (l : list A) : sublist (List.filter c l) l.
Proof.
  induction l as [|x l IH]; simpl; [constructor|].
  destruct (c x); by constructor.
Qed.

Lemma elem_of_missing_in (f : FS) (ps : list path) (p : path) :
  p ∈ missing_in f ps <-> p ∈ ps /\ file_exists f p = false.
Proof.
  unfold missing_in. rewrite !list_elem_of_In, filter_In.
  by rewrite negb_true_iff.
Qed.

(** X1. [_missing_paths] never raises and changes nothing: it asks once,
    in order, whether each path exists, and returns the paths that do not,
    in the order given and as often as given.  The result is empty exactly
    when every path exists. *)
Theorem X1_missing_paths_lists_absent_files (paths : list path) (w : World) :
  exists missing w',
    _missing_paths paths w = (Ok missing, w')
    /\ fs w' = fs w /\ argv w' = argv w /\ tasks w' = tasks w
    /\ log w' = log w ++ (Exists <$> paths)
    /\ sublist missing paths
    /\ (forall p, p ∈ missing <-> p ∈ paths /\ file_exists (fs w) p = false)
    /\ (missing = [] <-> forall p, p ∈ paths -> file_exists (fs w) p = true).
Proof.
  eexists _, _. split; [apply _missing_paths_run|]. split_and!; try done.
  - apply kept_sublist.
  - intros p. apply elem_of_missing_in.
  - split.
    + intros H%missing_in_nil_all_exist p Hp.
      unfold all_exist in H. rewrite Forall_forall in H. by apply H.
    + intros H. apply missing_in_nil_all_exist, Forall_forall. exact H.
Qed.

(** ** [_out_of_date_outputs] *)

Lemma getmtime_missing (p : path) (w : World) :
  file_exists (fs w) p = false ->
  getmtime p w = (Raise (OSError (fspath p)), emits [Getmtime p] w).
Proof.
  unfold file_exists, getmtime. intros H. apply bool_decide_eq_false in H.
  destruct (fs w !! fspath p) eqn:E; [|done]. exfalso. apply H. by eexists.
Qed.

Lemma for_each_getmtime_stops (pre post : list path) (p : path) (w : World) :
  all_exist (fs w) pre ->
  file_exists (fs w) p = false ->
  for_each getmtime (pre ++ p :: post) w
  = (Raise (OSError (fspath p)), emits (Getmtime <$> (pre ++ [p])) w).
Proof.
  revert w. induction pre as [|q pre IH]; intros w Hpre Hp; simpl.
  - unfold bind. by rewrite getmtime_missing.
  - inversion Hpre as [|? ? Hq Hrest]; subst.
    unfold bind at 1. rewrite (getmtime_exists _ _ Hq).
    unfold bind at 1. rewrite IH by done. by rewrite emits_emits.
Qed.

Lemma keep_if_older_stops (th : Z) (pre post : list path) (p : path) (w : World) :
  all_exist (fs w) pre ->
  file_exists (fs w) p = false ->
  keep_if (fun output => t <- getmtime output ;; ret (t <? th)) (pre ++ p :: post) w
  = (Raise (OSError (fspath p)), emits (Getmtime <$> (pre ++ [p])) w).
Proof.
  revert w. induction pre as [|q pre IH]; intros w Hpre Hp; simpl.
  - unfold bind. by rewrite getmtime_missing.
  - inversion Hpre as [|? ? Hq Hrest]; subst.
    unfold bind at 1 2. rewrite (getmtime_exists _ _ Hq). unfold ret at 1.
    unfold bind at 1. rewrite IH by done. by rewrite emits_emits.
Qed.

(** X2. [_out_of_date_outputs] does not check that the inputs exist: at
    the first input that is not there, [getmtime] raises; the inputs after
    it, the defining file and the outputs are not looked at. *)
Theorem X2_staleness_raises_on_missing_input
    (t : Task) (w : World) (pre post : list path) (p : path) :
  inputs t = pre ++ p :: post ->
  missing_in (fs w) pre = [] ->
  file_exists (fs w) p = false ->
  _out_of_date_outputs t w
  = (Raise (OSError (fspath p)), emits (Getmtime <$> (pre ++ [p])) w).
Proof.
  intros Hin Hpre%missing_in_nil_all_exist Hp. unfold _out_of_date_outputs.
  unfold bind at 1. by rewrite Hin, for_each_getmtime_stops.
Qed.

(** X3. Nor does it check the outputs: with the inputs in place, at the
    first output that is not there [getmtime] raises, after the inputs and
    the defining file were looked at; later outputs are not. *)
Theorem X3_staleness_raises_on_missing_output
    (t : Task) (w : World) (pre post : list path) (o : path) :
  missing_in (fs w) (inputs t) = [] ->
  outputs t = pre ++ o :: post ->
  missing_in (fs w) pre = [] ->
  file_exists (fs w) o = false ->
  _out_of_date_outputs t w
  = (Raise (OSError (fspath o)),
     emits (baseline_queries (fs w) t ++ (Getmtime <$> (pre ++ [o]))) w).
Proof.
  intros Hi%missing_in_nil_all_exist Hout Hpre%missing_in_nil_all_exist Ho.
  unfold _out_of_date_outputs, baseline_queries, source_of.
  unfold bind at 1. rewrite (for_each_getmtime_run _ _ Hi).
  unfold bind at 1. unfold os_path_exists at 1. rewrite ?fs_emits, Hout.
  destruct (file_exists (fs w) (getfile (callable t))) eqn:E.
  - unfold bind at 1. rewrite getmtime_exists by done. rewrite ?fs_emits.
    rewrite keep_if_older_stops by done.
    by rewrite !emits_emits, <- !app_assoc.
  - unfold bind at 1. unfold ret at 1.
    rewrite keep_if_older_stops by done.
    by rewrite !emits_emits, <- !app_assoc.
Qed.

Lemma lt_max_default (xs : list Z) (a : Z) :
  a < max_default xs 0 <-> (xs = [] /\ a < 0) \/ (exists x, x ∈ xs /\ a < x).
Proof.
  split.
  - destruct (decide (xs = [])) as [->|Hne]; [by left|]. intros H. right.
    exists (max_default xs 0). split; [|done].
    by apply max_default_attained.
  - intros [[-> H]|(x & Hx & H)]; [done|].
    pose proof (max_default_upper xs 0 x Hx). lia.
Qed.

Lemma elem_of_out_of_date (f : FS) (t : Task) (o : path) :
  o ∈ out_of_date f t <->
  o ∈ outputs t
  /\ ((exists i, i ∈ inputs t /\ mtime_of f o < mtime_of f i)
      \/ (inputs t = [] /\ mtime_of f o < 0)
      \/ (file_exists f (source_of t) = true /\ mtime_of f o < mtime_of f (source_of t))
      \/ (file_exists f (source_of t) = false /\ mtime_of f o < 0)).
Proof.
  unfold out_of_date, modification_threshold, source_modified_time, source_of.
  rewrite list_elem_of_In, filter_In, <- list_elem_of_In, Z.ltb_lt, Z.max_lt_iff.
  rewrite lt_max_default.
  assert (Hfm : (exists x, x ∈ mtime_of f <$> inputs t /\ mtime_of f o < x)
                <-> exists i, i ∈ inputs t /\ mtime_of f o < mtime_of f i).
  { split.
    - intros (x & (i & -> & Hi)%list_elem_of_fmap & Hlt). by exists i.
    - intros (i & Hi & Hlt). exists (mtime_of f i). split; [|done].
      by apply list_elem_of_fmap_2. }
  assert (Hnil : mtime_of f <$> inputs t = [] <-> inputs t = []).
  { split; [apply fmap_nil_inv | by intros ->]. }
  rewrite Hfm, Hnil.
  destruct (file_exists f (getfile (callable t))); intuition congruence.
Qed.

(** X4. Which outputs are out of date.  With inputs and outputs in place,
    [_out_of_date_outputs] returns an output exactly when it is older than
    some input, or older than the file that defines the routine, or, where
    a baseline is missing (no inputs, or the defining file not there), has
    a modification time below 0. *)
Theorem X4_out_of_date_membership (t : Task) (w : World) :
  missing_in (fs w) (inputs t) = [] ->
  missing_in (fs w) (outputs t) = [] ->
  exists outdated w',
    _out_of_date_outputs t w = (Ok outdated, w')
    /\ sublist outdated (outputs t)
    /\ forall o,
         o ∈ outdated <->
         o ∈ outputs t
         /\ ((exists i, i ∈ inputs t /\ mtime_of (fs w) o < mtime_of (fs w) i)
             \/ (inputs t = [] /\ mtime_of (fs w) o < 0)
             \/ (file_exists (fs w) (source_of t) = true
                 /\ mtime_of (fs w) o < mtime_of (fs w) (source_of t))
             \/ (file_exists (fs w) (source_of t) = false
                 /\ mtime_of (fs w) o < 0)).
Proof.
  intros Hi%missing_in_nil_all_exist Ho%missing_in_nil_all_exist.
  eexists _, _. split; [by apply _out_of_date_outputs_run|]. split.
  - apply kept_sublist.
  - intros o. apply elem_of_out_of_date.
Qed.

(** ** One pass of the loop *)

Lemma calls_getmtime (ps : list path) : calls (Getmtime <$> ps) = [].
Proof. induction ps as [|p ps IH]; [done | exact IH]. Qed.

Lemma calls_staleness_queries (f : FS) (t : Task) : calls (staleness_queries f t) = [].
Proof.
  unfold staleness_queries. rewrite calls_app, calls_getmtime. simpl.
  destruct (file_exists f (getfile (callable t))); simpl; apply calls_getmtime.
Qed.

Lemma calls_pass_events (force : bool) (n : string) (t : Task) (f : FS) :
  calls (pass_events force n t f)
  = if truthy (missing_in f (inputs t)) then []
    else if force then [callable t]
    else if truthy (missing_in f (outputs t)) then [callable t]
    else if truthy (out_of_date f t) then [callable t]
    else [].
Proof.
  unfold pass_events, run_notice_and_call. rewrite calls_app, calls_exists. simpl.
  destruct (truthy (missing_in f (inputs t))); [done|].
  destruct force; [done|]. rewrite calls_app, calls_exists. simpl.
  destruct (truthy (missing_in f (outputs t))); [done|].
  rewrite calls_app, calls_staleness_queries. simpl.
  by destruct (truthy (out_of_date f t)).
Qed.

Lemma call_after (f : Callable) (evs : list event) (w : World) :
  call f (emits evs w)
  = ((body f (fs w)).1, set_fs (body f (fs w)).2 (emits (evs ++ [Call f]) w)).
Proof.
  unfold call. cbn zeta. rewrite !fs_emits, emits_emits.
  by destruct (body f (fs w)) as [r f'].
Qed.

Lemma str_join_raises (sep : string) (l : list path) (e : exn) :
  str_join sep l = Raise e -> exists i, e = TypeError i.
Proof.
  unfold str_join.
  assert (Hs : forall l i e, strs_from i l = Raise e -> exists j, e = TypeError j).
  { clear. induction l as [|[s|s] l IH]; intros i e; simpl; [done | | ].
    - destruct (strs_from (S i) l) eqn:E; [done|]. intros [= <-]. by eapply IH.
    - intros [= <-]. by eexists. }
  destruct (strs_from 0 l) eqn:E; [done|]. intros [= <-]. by eapply Hs.
Qed.

(** What a pass comes to: either it ends in an exception of the loop
    itself without the task being called, or the task is called last and
    the pass ends as the task does, with the filesystem the task left. *)
Lemma run_task_outcome (force : bool) (n : string) (t : Task) (w : World) :
  (calls (pass_events force n t (fs w)) = []
   /\ exists e,
        run_task force n t w = (Raise e, emits (pass_events force n t (fs w)) w)
        /\ ((exists listed, e = FileNotFoundError (missing_inputs_message n listed))
            \/ (exists i, e = TypeError i)
            \/ e = NameError "outputs"))
  \/ (calls (pass_events force n t (fs w)) = [callable t]
      /\ last (pass_events force n t (fs w)) = Some (Call (callable t))
      /\ run_task force n t w
         = ((body (callable t) (fs w)).1,
            set_fs (body (callable t) (fs w)).2
              (emits (pass_events force n t (fs w)) w))).
Proof.
  rewrite calls_pass_events. unfold pass_events, run_notice_and_call.
  destruct (truthy_cases (missing_in (fs w) (inputs t))) as [[Hi ->]|[Hi ->]].
  2: { left. split; [done|]. rewrite run_task_inputs_missing by done.
       rewrite app_nil_r.
       destruct (str_join ", " (missing_in (fs w) (inputs t))) as [listed|e] eqn:E.
       - eexists. split; [done|]. left. by eexists.
       - eexists. split; [done|]. right. left. by eapply str_join_raises. }
  apply missing_in_nil_all_exist in Hi.
  destruct force.
  { right. split; [done|]. split; [by rewrite last_app|].
    rewrite run_task_forced, call_after by done. by rewrite <- !app_assoc. }
  destruct (truthy_cases (missing_in (fs w) (outputs t))) as [[Ho ->]|[Ho ->]].
  2: { right. split; [done|]. split; [by rewrite !last_app|].
       rewrite run_task_outputs_missing, call_after by done.
       by rewrite <- !app_assoc. }
  apply missing_in_nil_all_exist in Ho.
  destruct (truthy_cases (out_of_date (fs w) t)) as [[Hd ->]|[Hd ->]].
  - left. split; [done|]. eexists. split; [|by right; right].
    rewrite run_task_fresh by done. by rewrite app_nil_r.
  - right. split; [done|]. split; [by rewrite !last_app|].
    rewrite run_task_out_of_date, call_after by done.
    by rewrite <- !app_assoc.
Qed.

(** X5. A stale output makes the task run.  Nothing forced, inputs and
    outputs in place, and an output older than one of the inputs or than
    the file that defines the routine: the pass prints the notice "out of
    date outputs" listing that output among the out-of-date ones, and
    calls the task. *)
Theorem X5_stale_output_reruns_task (n : string) (t : Task) (w : World) (o : path) :
  missing_in (fs w) (inputs t) = [] ->
  missing_in (fs w) (outputs t) = [] ->
  o ∈ outputs t ->
  (exists i, i ∈ inputs t /\ mtime_of (fs w) o < mtime_of (fs w) i)
  \/ (file_exists (fs w) (source_of t) = true
      /\ mtime_of (fs w) o < mtime_of (fs w) (source_of t)) ->
  exists outdated,
    o ∈ outdated
    /\ (_out_of_date_outputs t
          (emits ((Exists <$> inputs t) ++ (Exists <$> outputs t)) w)).1 = Ok outdated
    /\ run_task false n t w
       = call (callable t)
           (emits ((Exists <$> inputs t) ++ (Exists <$> outputs t)
                   ++ staleness_queries (fs w) t
                   ++ [Print (out_of_date_notice n outdated)]) w).
Proof.
  intros Hi%missing_in_nil_all_exist Ho%missing_in_nil_all_exist Hin Hold.
  assert (Hmem : o ∈ out_of_date (fs w) t).
  { apply elem_of_out_of_date. split; [done|]. tauto. }
  exists (out_of_date (fs w) t). split; [done|]. split.
  - by rewrite _out_of_date_outputs_run.
  - apply run_task_out_of_date; try done. intros Hnil. rewrite Hnil in Hmem.
    by apply elem_of_nil in Hmem.
Qed.

(** X6. How a pass can end.  The task is called at most once, as the last
    thing the pass does.  A pass in which it was not called ends in one of
    the three exceptions of the loop itself (never in a failed
    [getmtime]), the filesystem untouched.  A pass returns normally only
    when the task was called and returned.  A called task that raises ends
    the pass in its exception.  After a call, returned or raised, the
    filesystem is what the task left. *)
Theorem X6_pass_outcome (force : bool) (n : string) (t : Task) (w : World) :
  (calls (pass_events force n t (fs w)) = []
   \/ (calls (pass_events force n t (fs w)) = [callable t]
       /\ last (pass_events force n t (fs w)) = Some (Call (callable t))))
  /\ log (run_task force n t w).2 = log w ++ pass_events force n t (fs w)
  /\ (calls (pass_events force n t (fs w)) = [] ->
      fs (run_task force n t w).2 = fs w
      /\ exists e,
           (run_task force n t w).1 = Raise e
           /\ ((exists listed, e = FileNotFoundError (missing_inputs_message n listed))
               \/ (exists i, e = TypeError i)
               \/ e = NameError "outputs"))
  /\ (forall w', run_task force n t w = (Ok tt, w') ->
        calls (pass_events force n t (fs w)) = [callable t]
        /\ body (callable t) (fs w) = (Ok tt, fs w'))
  /\ (forall e f', body (callable t) (fs w) = (Raise e, f') ->
        calls (pass_events force n t (fs w)) = [callable t] ->
        (run_task force n t w).1 = Raise e /\ fs (run_task force n t w).2 = f').
Proof.
  split_and!.
  - destruct (run_task_outcome force n t w) as [[Hc _]|(Hc & Hl & _)]; [by left | by right].
  - apply run_task_log.
  - intros Hc.
    destruct (run_task_outcome force n t w) as [(_ & e & -> & He)|(Hc' & _)];
      [|congruence].
    split; [done|]. by exists e.
  - intros w' Hrun.
    destruct (run_task_outcome force n t w) as [(_ & e & He & _)|(Hc & _ & Hr)];
      [congruence|].
    split; [done|]. rewrite Hr in Hrun.
    destruct (body (callable t) (fs w)) as [r f']. simpl in Hrun.
    by injection Hrun as -> <-.
  - intros e f' Hb Hc.
    destruct (run_task_outcome force n t w) as [(Hc' & _)|(_ & _ & ->)];
      [congruence|].
    by rewrite Hb.
Qed.

(** ** A whole run *)

(** What a run adds to the log: no skip notice, and, when the run returns,
    one call per entry, in the order of the registry. *)
Lemma for_items_log (force : bool) (items : list (string * Task)) (w : World) :
  exists evs,
    log (for_items force items w).2 = log w ++ evs
    /\ (forall m, skip_notice m ∉ prints evs)
    /\ ((for_items force items w).1 = Ok tt ->
        calls evs = (fun item => callable item.2) <$> items).
Proof.
  revert w. induction items as [|[n t] items IH]; intros w.
  - exists []. simpl. rewrite app_nil_r. split_and!; try done.
    intros m. apply not_elem_of_nil.
  - rewrite for_items_cons.
    pose proof (run_task_log force n t w) as Hlog.
    pose proof (pass_never_skips force n) as Hskip.
    destruct (run_task_outcome force n t w) as [(_ & e & Hr & _)|(Hc & _ & Hr)].
    + rewrite Hr. exists (pass_events force n t (fs w)). split_and!; try done; intros m; apply Hskip.
    + rewrite Hr. destruct (body (callable t) (fs w)) as [[[]|e] f']; cbn [fst snd].
      * destruct (IH (set_fs f' (emits (pass_events force n t (fs w)) w)))
          as (evs & Hl & Hs & Hcalls).
        exists (pass_events force n t (fs w) ++ evs). split_and!.
        -- rewrite Hl. simpl. by rewrite app_assoc.
        -- intros m. rewrite prints_app, elem_of_app. intros [H|H].
           ++ by eapply Hskip.
           ++ by eapply Hs.
        -- intros Hok. rewrite calls_app, Hc, Hcalls by done. done.
      * exists (pass_events force n t (fs w)). split_and!; try done; intros m; apply Hskip.
Qed.

(** X7. A run that returns has called every task.  Forced or not, when
    [run_tasks] returns normally, what it added to the log holds one call
    per entry of the registry, in the registry's order: there is no
    normal return past a task that was not run. *)
Theorem X7_normal_return_called_every_task (force : bool) (w w' : World) :
  run_tasks force w = (Ok tt, w') ->
  exists evs,
    log w' = log w ++ evs
    /\ calls evs = (fun item => callable item.2) <$> tasks w.
Proof.
  rewrite run_tasks_unfold. intros Hrun.
  destruct (for_items_log (effective_force force w) (tasks w) w)
    as (evs & Hl & _ & Hc).
  rewrite Hrun in Hl, Hc. exists evs. split; [done | by apply Hc].
Qed.

(** X8. The notice of line 92 is never printed.  Whatever the registry,
    the files and [force], no line "Skipped task ..." is among what a run
    prints. *)
Theorem X8_run_never_prints_skip_notice (force : bool) (w : World) :
  exists evs,
    log (run_tasks force w).2 = log w ++ evs
    /\ forall task_name, skip_notice task_name ∉ prints evs.
Proof.
  rewrite run_tasks_unfold.
  destruct (for_items_log (effective_force force w) (tasks w) w)
    as (evs & Hl & Hs & _).
  by exists evs.
Qed.

(** X9. A task that raises ends the run with its exception.  The entries
    before it done, its inputs in place, and the task due (forced, or an
    output missing, or an output out of date): the run ends in the
    exception the task raised, the log ending with the call; the
    filesystem is what the task left when it raised, nothing being undone,
    and no later entry is looked at. *)
Theorem X9_task_exception_ends_run (force : bool)
    (pre post : list (string * Task)) (n : string) (t : Task) (w w1 : World)
    (e : exn) (f' : FS) :
  tasks w = pre ++ (n, t) :: post ->
  for_items (effective_force force w) pre w = (Ok tt, w1) ->
  missing_in (fs w1) (inputs t) = [] ->
  effective_force force w = true
  \/ missing_in (fs w1) (outputs t) <> []
  \/ out_of_date (fs w1) t <> [] ->
  body (callable t) (fs w1) = (Raise e, f') ->
  exists w',
    run_tasks force w = (Raise e, w')
    /\ fs w' = f'
    /\ log w' = log w1 ++ pass_events (effective_force force w) n t (fs w1)
    /\ last (log w') = Some (Call (callable t)).
Proof.
  intros Ht Hpre Hi Hdue Hb. rewrite run_tasks_unfold, Ht.
  rewrite for_items_app, Hpre, for_items_cons.
  assert (Hc : calls (pass_events (effective_force force w) n t (fs w1)) = [callable t]).
  { rewrite calls_pass_events, Hi. simpl.
    destruct (effective_force force w); [done|].
    destruct Hdue as [?|[Ho|Hd]]; [done | by rewrite truthy_true |].
    destruct (truthy (missing_in (fs w1) (outputs t))); [done|].
    by rewrite truthy_true. }
  destruct (run_task_outcome (effective_force force w) n t w1)
    as [(Hc' & _)|(_ & Hl & ->)]; [congruence|].
  rewrite Hb. eexists. split; [reflexivity|]. split_and!; try done.
  simpl. by rewrite last_app, Hl.
Qed.

(** ** The exception for missing inputs *)

Lemma strs_from_all_str (i : nat) (l : list path) :
  forallb is_str l = true -> strs_from i l = Ok (str <$> l).
Proof.
  revert i. induction l as [|[s|s] l IH]; intros i; simpl; [done | | done].
  intros H. by rewrite IH.
Qed.

Lemma strs_from_first_path (i : nat) (pre post : list path) (s : string) :
  forallb is_str pre = true ->
  strs_from i (pre ++ Path s :: post) = Raise (TypeError (i + length pre)).
Proof.
  revert i. induction pre as [|[s'|s'] pre IH]; intros i; simpl; [| | done].
  - intros _. by rewrite Nat.add_0_r.
  - intros H. rewrite IH by done. by rewrite Nat.add_succ_r.
Qed.

(** X10. Which exception a missing input gives.  When every missing input
    is a [str], the pass raises the [FileNotFoundError] whose message names
    the task and lists the missing inputs, in the order declared, joined by
    ", ".  When one of them is a [Path], it raises the [TypeError] of
    [join], for the position of the first [Path] among the missing ones.
    Either way nothing is done after the existence checks of the inputs. *)
Theorem X10_missing_input_exception (force : bool) (n : string) (t : Task) (w : World) :
  missing_in (fs w) (inputs t) <> [] ->
  (forallb is_str (missing_in (fs w) (inputs t)) = true ->
   run_task force n t w
   = (Raise (FileNotFoundError
               (missing_inputs_message n
                  (join ", " (str <$> missing_in (fs w) (inputs t))))),
      emits (Exists <$> inputs t) w))
  /\ (forall pre s post,
        missing_in (fs w) (inputs t) = pre ++ Path s :: post ->
        forallb is_str pre = true ->
        run_task force n t w
        = (Raise (TypeError (length pre)), emits (Exists <$> inputs t) w)).
Proof.
  intros Hmiss. split.
  - intros Hall. rewrite run_task_inputs_missing by done.
    unfold str_join. by rewrite strs_from_all_str.
  - intros pre s post Heq Hpre. rewrite run_task_inputs_missing by done.
    unfold str_join. rewrite Heq. by rewrite strs_from_first_path.
Qed.

(** ** The registry after any number of registrations *)

Lemma tasks_registered (i o : option (list path)) (f : Callable) (w : World) :
  tasks (registered i o f w) = dict_setitem (__name__ f) (entry_of i o f) (tasks w).
Proof. reflexivity. Qed.

Lemma register_all_snoc (rs : list registration) (r : registration) (w : World) :
  register_all (rs ++ [r]) w = registered r.1.1 r.1.2 (routine r) (register_all rs w).
Proof. unfold register_all. by rewrite foldl_snoc. Qed.

Lemma keys_register_all (rs : list registration) (w : World) :
  dict_keys (tasks (register_all rs w))
  = dict_keys (tasks w)
    ++ filter (fun k => k ∉ dict_keys (tasks w)) (first_occurrences (name_of <$> rs)).
Proof.
  revert w. induction rs as [|r rs IH]; intros w.
  - simpl. by rewrite app_nil_r.
  - change (register_all (r :: rs) w)
      with (register_all rs (registered r.1.1 r.1.2 (routine r) w)).
    rewrite IH, tasks_registered, dict_keys_setitem.
    rewrite fmap_cons. cbn [first_occurrences].
    fold (name_of r). set (k := name_of r). set (K := dict_keys (tasks w)).
    destruct (decide (k ∈ K)) as [Hin|Hin].
    + rewrite bool_decide_eq_true_2 by done.
      rewrite filter_cons_False by (intros H; by apply H).
      f_equal. symmetry. apply list_filter_filter_l.
      intros x Hx ->. by apply Hx.
    + rewrite bool_decide_eq_false_2 by done.
      rewrite filter_cons_True by done. rewrite <- app_assoc. simpl.
      do 2 f_equal. rewrite list_filter_filter. apply list_filter_iff.
      intros x. rewrite elem_of_app, list_elem_of_singleton. tauto.
Qed.

Lemma filter_all {A} (P : A -> Prop) `{!forall x, Decision (P x)} (l : list A) :
  (forall x, P x) -> filter P l = l.
Proof.
  intros HP. induction l as [|x l IH]; [done|].
  rewrite filter_cons_True by done. by rewrite IH.
Qed.

(** X11. Where a name stands in the registry.  After any registrations,
    the names already in the registry stand where they stood, followed by
    the new names in the order in which each was registered first; a later
    registration under a name moves nothing.  Into an empty registry: the
    names are the registered names, each once, at its first place. *)
Theorem X11_names_stand_at_first_registration (rs : list registration) (w : World) :
  dict_keys (tasks (register_all rs w))
  = dict_keys (tasks w)
    ++ filter (fun k => k ∉ dict_keys (tasks w)) (first_occurrences (name_of <$> rs))
  /\ (tasks w = [] ->
      dict_keys (tasks (register_all rs w)) = first_occurrences (name_of <$> rs)).
Proof.
  split; [apply keys_register_all|].
  intros Hw. rewrite keys_register_all, Hw. simpl.
  apply filter_all. intros k. apply not_elem_of_nil.
Qed.

Lemma NoDup_keys_registered (i o : option (list path)) (f : Callable) (w : World) :
  NoDup (dict_keys (tasks w)) -> NoDup (dict_keys (tasks (registered i o f w))).
Proof.
  intros H. rewrite tasks_registered, dict_keys_setitem.
  destruct (decide (__name__ f ∈ dict_keys (tasks w))) as [Hin|Hin].
  - by rewrite bool_decide_eq_true_2.
  - rewrite bool_decide_eq_false_2 by done. apply NoDup_app. split_and!; [done | |].
    + intros x Hx ->%list_elem_of_singleton. done.
    + apply NoDup_singleton.
Qed.

Lemma elem_of_keys_registered (i o : option (list path)) (f : Callable) (w : World) k :
  k ∈ dict_keys (tasks (registered i o f w)) <-> k ∈ dict_keys (tasks w) \/ k = __name__ f.
Proof.
  rewrite tasks_registered, dict_keys_setitem.
  destruct (decide (__name__ f ∈ dict_keys (tasks w))) as [Hin|Hin].
  - rewrite bool_decide_eq_true_2 by done. split; [tauto | by intros [?| ->]].
  - rewrite bool_decide_eq_false_2 by done.
    rewrite elem_of_app, list_elem_of_singleton. tauto.
Qed.

(** X12. Names stay unique.  If no name stands twice in the registry,
    none does after any registrations; the names then are the old ones and
    the registered ones, and there are at most as many entries more as
    there were registrations. *)
Theorem X12_registry_names_stay_unique (rs : list registration) (w : World) :
  NoDup (dict_keys (tasks w)) ->
  NoDup (dict_keys (tasks (register_all rs w)))
  /\ (forall k, k ∈ dict_keys (tasks (register_all rs w)) <->
                k ∈ dict_keys (tasks w) \/ k ∈ name_of <$> rs)
  /\ (length (tasks w) <= length (tasks (register_all rs w))
      <= length (tasks w) + length rs)%nat.
Proof.
  revert w. induction rs as [|r rs IH]; intros w Hnd.
  - simpl. split_and!; try done; [|lia..].
    intros k. rewrite elem_of_nil. tauto.
  - change (register_all (r :: rs) w)
      with (register_all rs (registered r.1.1 r.1.2 (routine r) w)).
    destruct (IH (registered r.1.1 r.1.2 (routine r) w)) as (Hn & Hk & Hl);
      [by apply NoDup_keys_registered|].
    split_and!; [done | |..].
    + intros k. rewrite Hk, elem_of_keys_registered, fmap_cons, elem_of_cons.
      unfold name_of. tauto.
    + rewrite tasks_registered, dict_setitem_length in Hl.
      destruct (bool_decide _); lia.
    + rewrite tasks_registered, dict_setitem_length in Hl.
      destruct (bool_decide _); simpl; lia.
Qed.

(** X13. The last registration under a name is the one in force.  After
    any registrations, a name leads to the entry of the last registration
    made under it, whatever was stored under it before; a name none of
    them used leads to what it led to. *)
Theorem X13_last_registration_wins (rs : list registration) (w : World) (k : string) :
  dict_get k (tasks (register_all rs w))
  = match latest k rs with
    | Some r => Some (entry_of r.1.1 r.1.2 (routine r))
    | None => dict_get k (tasks w)
    end.
Proof.
  unfold latest. induction rs as [|r rs IH] using rev_ind; [done|].
  rewrite register_all_snoc, tasks_registered, filter_app.
  destruct (decide (name_of r = k)) as [Hk|Hk].
  - rewrite filter_cons_True, filter_nil by done. rewrite last_snoc.
    unfold name_of in Hk. rewrite Hk. apply dict_get_setitem_eq.
  - rewrite filter_cons_False, filter_nil, app_nil_r by done.
    rewrite dict_get_setitem_ne; [exact IH|]. intros ->. by apply Hk.
Qed.

(** ** When a run returns *)

Lemma called_iff_due (force : bool) (n : string) (t : Task) (f : FS) :
  calls (pass_events force n t f) = [callable t]
  <-> missing_in f (inputs t) = [] /\ due force f t = true.
Proof.
  rewrite calls_pass_events. unfold due.
  destruct (truthy_cases (missing_in f (inputs t))) as [[Hi ->]|[Hi ->]].
  2: { split; [done | by intros [? _]]. }
  destruct force; simpl; [done|].
  destruct (truthy (missing_in f (outputs t))); simpl; [done|].
  destruct (truthy (out_of_date f t)); simpl; [done|]. split; [done | by intros [_ ?]].
Qed.

Lemma for_items_returns (force : bool) (items : list (string * Task)) (w : World) :
  (for_items force items w).1 = Ok tt <-> runs_in_turn force items (fs w).
Proof.
  revert w. induction items as [|[n t] items IH]; intros w; [done|].
  rewrite for_items_cons. cbn [runs_in_turn].
  destruct (run_task_outcome force n t w) as [(Hc & e & -> & _)|(Hc & _ & ->)].
  - split; [done|]. intros (Hi & Hd & _).
    assert (calls (pass_events force n t (fs w)) = [callable t])
      by (by apply called_iff_due).
    congruence.
  - apply called_iff_due in Hc as [Hi Hd].
    destruct (body (callable t) (fs w)) as [[[]|e] f']; cbn [fst snd].
    + rewrite IH. simpl. split.
      * intros H. split_and!; try done. by exists f'.
      * by intros (_ & _ & f'' & [= <-] & H).
    + split; [done|]. by intros (_ & _ & f'' & ? & _).
Qed.

(** X14. When a run returns normally.  [run_tasks] returns exactly when
    every entry, at its turn, has its inputs in place, is due (forced, or
    an output missing, or an output out of date) and its task returns. *)
Theorem X14_run_returns_iff_every_task_runs (force : bool) (w : World) :
  (run_tasks force w).1 = Ok tt
  <-> runs_in_turn (effective_force force w) (tasks w) (fs w).
Proof. rewrite run_tasks_unfold. apply for_items_returns. Qed.

(** ** The further properties on the concrete files *)

Lemma X2_staleness_raises_on_missing_input_witness :
  _out_of_date_outputs Scenario.second_input_missing (Scenario.start Scenario.mixed)
  = (Raise (OSError "gone.txt"),
     emits (Getmtime <$> ([Str "src.txt"] ++ [Path "gone.txt"]))
       (Scenario.start Scenario.mixed)).
Proof.
  apply (X2_staleness_raises_on_missing_input Scenario.second_input_missing
           (Scenario.start Scenario.mixed) [Str "src.txt"] [Str "other.txt"]
           (Path "gone.txt")).
  - reflexivity.
  - vm_compute; reflexivity.
  - vm_compute; reflexivity.
Defined.

Lemma X3_staleness_raises_on_missing_output_witness :
  _out_of_date_outputs Scenario.second_output_missing (Scenario.start Scenario.mixed)
  = (Raise (OSError "gone.bin"),
     emits (baseline_queries Scenario.mixed Scenario.second_output_missing
            ++ (Getmtime <$> ([Str "out.bin"] ++ [Path "gone.bin"])))
       (Scenario.start Scenario.mixed)).
Proof.
  apply (X3_staleness_raises_on_missing_output Scenario.second_output_missing
           (Scenario.start Scenario.mixed) [Str "out.bin"] [Str "old.bin"]
           (Path "gone.bin")).
  - vm_compute; reflexivity.
  - reflexivity.
  - vm_compute; reflexivity.
  - vm_compute; reflexivity.
Defined.

Lemma X4_out_of_date_membership_witness :
  let t := Scenario.mixed_task in
  let w := Scenario.start Scenario.mixed in
  (_out_of_date_outputs t w).1 = Ok [Str "old.bin"]
  /\ exists outdated w',
       _out_of_date_outputs t w = (Ok outdated, w')
       /\ sublist outdated (outputs t)
       /\ forall o,
            o ∈ outdated <->
            o ∈ outputs t
            /\ ((exists i, i ∈ inputs t /\ mtime_of (fs w) o < mtime_of (fs w) i)
                \/ (inputs t = [] /\ mtime_of (fs w) o < 0)
                \/ (file_exists (fs w) (source_of t) = true
                    /\ mtime_of (fs w) o < mtime_of (fs w) (source_of t))
                \/ (file_exists (fs w) (source_of t) = false
                    /\ mtime_of (fs w) o < 0)).
Proof.
  split; [vm_compute; reflexivity|].
  apply (X4_out_of_date_membership Scenario.mixed_task (Scenario.start Scenario.mixed)).
  - vm_compute; reflexivity.
  - vm_compute; reflexivity.
Defined.

Lemma X5_stale_output_reruns_task_witness :
  let t := Scenario.build_task in
  let w := Scenario.with_build Scenario.stale_build in
  exists outdated,
    Str "out.bin" ∈ outdated
    /\ (_out_of_date_outputs t
          (emits ((Exists <$> inputs t) ++ (Exists <$> outputs t)) w)).1 = Ok outdated
    /\ run_task false "build" t w
       = call (callable t)
           (emits ((Exists <$> inputs t) ++ (Exists <$> outputs t)
                   ++ staleness_queries (fs w) t
                   ++ [Print (out_of_date_notice "build" outdated)]) w).
Proof.
  apply (X5_stale_output_reruns_task "build" Scenario.build_task
           (Scenario.with_build Scenario.stale_build) (Str "out.bin")).
  - vm_compute; reflexivity.
  - vm_compute; reflexivity.
  - apply list_elem_of_here.
  - left. exists (Str "src.txt"). split; [apply list_elem_of_here|].
    vm_compute; reflexivity.
Defined.

Lemma X7_normal_return_called_every_task_witness :
  let w := Scenario.A_B_A in
  exists evs,
    log (run_tasks false w).2 = log w ++ evs
    /\ calls evs = (fun item => callable item.2) <$> tasks w.
Proof.
  apply (X7_normal_return_called_every_task false Scenario.A_B_A
           (run_tasks false Scenario.A_B_A).2).
  vm_compute; reflexivity.
Defined.

Lemma X9_task_exception_ends_run_witness :
  let w := Scenario.clean_broken_build in
  let w1 := (for_items true [("clean", entry_of None None Scenario.clean)] w).2 in
  exists w',
    run_tasks true w = (Raise (TaskFailure "boom"), w')
    /\ fs w' = <["broken.tmp" := 300]> (fs w1)
    /\ log w' = log w1 ++ pass_events (effective_force true w) "broken"
                            Scenario.broken_task (fs w1)
    /\ last (log w') = Some (Call Scenario.broken).
Proof.
  apply (X9_task_exception_ends_run true
           [("clean", entry_of None None Scenario.clean)]
           [("build", Scenario.build_task)] "broken" Scenario.broken_task
           Scenario.clean_broken_build).
  - reflexivity.
  - vm_compute; reflexivity.
  - reflexivity.
  - left. reflexivity.
  - reflexivity.
Defined.

Lemma X10_missing_input_exception_witness :
  let w := Scenario.start Scenario.before_build in
  run_task false "build" Scenario.str_inputs_missing w
  = (Raise (FileNotFoundError
              (missing_inputs_message "build"
                 (join ", " (str <$> missing_in (fs w)
                                       (inputs Scenario.str_inputs_missing))))),
     emits (Exists <$> inputs Scenario.str_inputs_missing) w)
  /\ run_task false "build" Scenario.path_input_missing w
     = (Raise (TypeError (length [Str "a.txt"])),
        emits (Exists <$> inputs Scenario.path_input_missing) w).
Proof.
  split.
  - apply (X10_missing_input_exception false "build" Scenario.str_inputs_missing
             (Scenario.start Scenario.before_build)).
    + vm_compute; discriminate.
    + vm_compute; reflexivity.
  - apply (proj2 (X10_missing_input_exception false "build" Scenario.path_input_missing
                    (Scenario.start Scenario.before_build)
                    ltac:(vm_compute; discriminate))
             [Str "a.txt"] "b.txt" [Str "c.txt"]).
    + vm_compute; reflexivity.
    + reflexivity.
Defined.

Lemma X12_registry_names_stay_unique_witness :
  let w := Scenario.start Scenario.before_build in
  let rs := Scenario.five in
  dict_keys (tasks (register_all rs w)) = ["A"; "B"; "clean"]
  /\ NoDup (dict_keys (tasks (register_all rs w)))
  /\ (forall k, k ∈ dict_keys (tasks (register_all rs w)) <->
                k ∈ dict_keys (tasks w) \/ k ∈ name_of <$> rs)
  /\ (length (tasks w) <= length (tasks (register_all rs w))
      <= length (tasks w) + length rs)%nat.
Proof.
  split; [vm_compute; reflexivity|].
  apply (X12_registry_names_stay_unique Scenario.five
           (Scenario.start Scenario.before_build)).
  apply NoDup_nil_2.
Defined.

(** Five registrations under three names: the names stand where each was
    registered first, and "B" leads to the fifth registration. *)
Lemma five_registrations :
  first_occurrences (name_of <$> Scenario.five) = ["A"; "B"; "clean"]
  /\ latest "B" Scenario.five = Some (Some [Str "src.txt"], None, Scenario.B)
  /\ latest "A" Scenario.five = Some (None, Some [Str "a2.out"], Scenario.A2)
  /\ latest "build" Scenario.five = None.
Proof. repeat split; vm_compute; reflexivity. Qed.
